(** * vmware_perf_counters.py: a shallow embedding and its properties

    The script logs in to a vCenter over raw SOAP, raises the collection
    level of every performance counter, hands the session cookie to a
    pyVmomi stub, lets the user pick an entity, an interval and a counter,
    queries the counter and plots the series.

    The embedding keeps the script's functions and names.  Pure helpers
    ([seconds_to_readable], [get_intervals], [get_counters]) are Rocq
    functions.  The calls that leave the process (SOAP, pyVmomi, the
    prompts, the clock, matplotlib) are answered by an explicit [World];
    code that performs them lives in a small trace-and-exception monad
    [M], whose trace records each outgoing call with its arguments. *)

From Stdlib Require Import ZArith Ascii String List Lia DecimalString DecimalPos.
From stdpp Require Import base option list strings gmap.

Local Open Scope Z_scope.

(** ** Exceptions and results

    The exception classes the script's own statements can raise, and
    [Fault] for whatever a collaborator (zeep, pyVmomi, questionary,
    matplotlib) raises from inside a call.  The script defines no
    exception class and has no [try], [raise] or [assert]. *)

Inductive exn : Type :=
| TypeError
| AttributeError
| OverflowError
| ZeroDivisionError
| Fault (origin : string).

Inductive outcome (A : Type) : Type :=
| Ret (a : A)
| Raise (e : exn).
Arguments Ret {A} a.
Arguments Raise {A} e.

(** ** Python values used by the script *)

Module Py.

(** [str(n)] for an [int]: decimal digits, a leading [-] when negative. *)
Definition str_int (n : Z) : string := NilZero.string_of_int (Z.to_int n).

(** Truth value of an [int] ([if days:]). *)
Definition truthy (n : Z) : bool := negb (n =? 0)%Z.

(** [divmod(a, b)]: floor division and the remainder with the sign of
    the divisor, which is what [Z.div] and [Z.modulo] compute. *)
Definition divmod (a b : Z) : Z * Z := (a / b, a mod b).

(** [sep.join(parts)]. *)
Fixpoint join (sep : string) (parts : list string) : string :=
  match parts with
  | [] => ""
  | [p] => p
  | p :: rest => p +:+ sep +:+ join sep rest
  end.

(** [s or default] on strings: the empty string is falsy. *)
Definition str_or (s default : string) : string :=
  match s with
  | EmptyString => default
  | _ => s
  end.

(** [c.isupper()] and [c.lower()] on one ASCII letter.  The counter
    names of the performance manager are ASCII; on ASCII text
    [str.casefold] is lower-casing of [A]..[Z]. *)
Definition casefold_ascii (c : ascii) : ascii :=
  let n := nat_of_ascii c in
  if (Nat.leb 65 n && Nat.leb n 90)%bool then ascii_of_nat (n + 32) else c.

Fixpoint casefold (s : string) : string :=
  match s with
  | EmptyString => EmptyString
  | String c rest => String (casefold_ascii c) (casefold rest)
  end.

(** [s.isascii()]: every character is below 128.  [casefold] above is
    [str.casefold] on such text only; outside ASCII, Unicode case
    folding does more (it can even lengthen the text), so a statement
    about which names a filter keeps holds for ASCII names. *)
Fixpoint isascii (s : string) : bool :=
  match s with
  | EmptyString => true
  | String c rest => (Nat.ltb (nat_of_ascii c) 128 && isascii rest)%bool
  end.

(** [s.startswith(prefix)]: a [None] argument is a [TypeError]. *)
Definition startswith (s : string) (prefix : option string) : outcome bool :=
  match prefix with
  | None => Raise TypeError
  | Some p => Ret (String.prefix p s)
  end.

(** [x or None] for an optional string: [None] and [''] are falsy. *)
Definition or_None (x : option string) : option string :=
  match x with
  | Some (String c rest) => Some (String c rest)
  | _ => None
  end.

(** [f'{x}'] for an optional string: [None] prints as [None]. *)
Definition fmt_opt (x : option string) : string :=
  match x with
  | Some s => s
  | None => "None"
  end.

(** [[x for x in l if cond(x)]] where [cond] may raise: elements are
    tested left to right and the first exception ends the loop. *)
Fixpoint comprehension_if {A : Type} (cond : A -> outcome bool) (l : list A)
  : outcome (list A) :=
  match l with
  | [] => Ret []
  | x :: rest =>
      match cond x with
      | Raise e => Raise e
      | Ret b =>
          match comprehension_if cond rest with
          | Raise e => Raise e
          | Ret kept => Ret (if b then x :: kept else kept)
          end
      end
  end.

(** [datetime - timedelta]: a result before [datetime.min] is an
    [OverflowError].  Times are microseconds since [datetime.min]. *)
Definition datetime_sub (t delta : Z) : outcome Z :=
  if t - delta <? 0 then Raise OverflowError else Ret (t - delta).

(** [datetime.timedelta(days=n)] in microseconds. *)
Definition timedelta_days (n : Z) : Z := n * 86400 * 1000000.

(** [x / d] on two [int]s: true division.  A zero divisor is a
    [ZeroDivisionError]; a quotient that rounds beyond the largest
    float, that is [|x| / |d| >= 2^1024 - 2^970], is an [OverflowError];
    otherwise the result is the float nearest to the quotient, which is
    kept here as the pair of the two integers. *)
Definition float_overflows (x d : Z) : bool :=
  (2 ^ 1024 - 2 ^ 970) * Z.abs d <=? Z.abs x.

Definition truediv (x d : Z) : outcome (Z * Z) :=
  if d =? 0 then Raise ZeroDivisionError
  else if float_overflows x d then Raise OverflowError
  else Ret (x, d).

(** [[f(x) for x in l]] where [f] may raise: left to right, the first
    exception ends the loop. *)
Fixpoint comprehension {A B : Type} (f : A -> outcome B) (l : list A)
  : outcome (list B) :=
  match l with
  | [] => Ret []
  | x :: rest =>
      match f x with
      | Raise e => Raise e
      | Ret y =>
          match comprehension f rest with
          | Raise e => Raise e
          | Ret ys => Ret (y :: ys)
          end
      end
  end.

End Py.

(** ** [seconds_to_readable] *)

Definition seconds_to_readable (seconds : Z) : string :=
  let '(minutes, sec) := Py.divmod seconds 60 in
  let '(hours, minutes) := Py.divmod minutes 60 in
  let '(days, hours) := Py.divmod hours 24 in
  let parts := [] in
  let parts := if Py.truthy days then parts ++ [Py.str_int days +:+ "d"] else parts in
  let parts := if Py.truthy hours then parts ++ [Py.str_int hours +:+ "h"] else parts in
  let parts := if Py.truthy minutes then parts ++ [Py.str_int minutes +:+ "m"] else parts in
  let parts := if Py.truthy sec then parts ++ [Py.str_int sec +:+ "s"] else parts in
  Py.str_or (Py.join " " parts) "0s".

(** ** Objects exchanged with the server and the libraries

    Each record keeps the attribute names the script reads.  Replies are
    taken well formed: an object the server sends has every attribute
    the script reads from it, integers are Python [int]s ([Z]) and
    strings are ASCII text.  Only what a prompt returns may be [None]. *)

(** The script's own dataclass. *)
Module CounterInfo.
Record t : Type := Build
  { id : Z; name : string; rollup_type : string; label : string; summary : string }.
End CounterInfo.

(** [PerfCounterInfo]: [c.key], [c.groupInfo.key], [c.nameInfo.key],
    [c.nameInfo.summary], [c.rollupType], [c.unitInfo.label]. *)
Module PerfCounterInfo.
Record t : Type := Build
  { key : Z; groupInfo_key : string; nameInfo_key : string;
    nameInfo_summary : string; rollupType : string; unitInfo_label : string }.
End PerfCounterInfo.

(** [PerformanceManagerCounterLevelMapping]. *)
Module CounterLevelMapping.
Record t : Type := Build { counterId : Z; aggregateLevel : Z }.
End CounterLevelMapping.

(** [ManagedObjectReference] as zeep returns it: [.type] and [._value_1]. *)
Module MoRef.
Record t : Type := Build { type : string; _value_1 : string }.
End MoRef.

(** [PerfInterval], an element of [perf_mgr.historicalInterval]. *)
Module PerfInterval.
Record t : Type := Build
  { samplingPeriod : Z; name : string; level : Z; length : Z }.
End PerfInterval.

(** [PerfMetricId], an element of the answer of [QueryAvailablePerfMetric]. *)
Module PerfMetricId.
Record t : Type := Build { counterId : Z; instance : string }.
End PerfMetricId.

(** The performance manager of the typed session: the two properties the
    script reads. *)
Module PerformanceManager.
Record t : Type := Build
  { perfCounter : list PerfCounterInfo.t;
    historicalInterval : list PerfInterval.t }.
End PerformanceManager.

(** A cookie of the SOAP transport's jar: [cookie.name], [cookie.value]. *)
Module Cookie.
Record t : Type := Build { name : string; value : option string }.
End Cookie.

(** [RequestsCookieJar._find_no_duplicates(name)] of the requests
    library, which [cookies.get] calls: the jar is walked in order; a
    second cookie of the name, met while a value is already held, is a
    [CookieConflictError]. *)
Fixpoint find_no_duplicates (name : string) (jar : list Cookie.t)
    (toReturn : option string) : outcome (option string) :=
  match jar with
  | [] => Ret toReturn
  | cookie :: rest =>
      if String.eqb (Cookie.name cookie) name then
        match toReturn with
        | Some _ => Raise (Fault "CookieConflictError")
        | None => find_no_duplicates name rest (Cookie.value cookie)
        end
      else find_no_duplicates name rest toReturn
  end.

(** [jar.get(name)]: the value found if it is truthy; a missing cookie,
    a cookie without value and an empty value all end in the [KeyError]
    that [get] turns into [None]. *)
Definition cookies_get (jar : list Cookie.t) (name : string) : outcome (option string) :=
  match find_no_duplicates name jar None with
  | Ret (Some (String c rest)) => Ret (Some (String c rest))
  | Ret _ => Ret None
  | Raise e => Raise e
  end.

(** The three managed-object types offered by the first prompt. *)
Inductive MoType : Type := HostSystem | VirtualMachine | Datastore.

(** A managed entity: its reference and its [name] property. *)
Module ManagedEntity.
Record t : Type := Build { moId : string; name : string }.
End ManagedEntity.

(** [PerfMetricIntSeries]: [m.id.instance] and [m.value]. *)
Module PerfMetricSeries.
Record t : Type := Build { id_instance : string; value : list Z }.
End PerfMetricSeries.

(** [PerfEntityMetric]: the timestamps of [rec.sampleInfo] and [rec.value]. *)
Module PerfEntityMetric.
Record t : Type := Build
  { sampleInfo : list Z; value : list PerfMetricSeries.t }.
End PerfEntityMetric.

(** [vim.PerformanceManager.QuerySpec] as [main] fills it: one metric id
    with the wildcard instance.  A [datetime] is the number of
    microseconds since [datetime.min]; [None] is an omitted bound. *)
Module QuerySpec.
Record t : Type := Build
  { entity : option ManagedEntity.t;
    metricId : list PerfMetricId.t;
    startTime : option Z;
    endTime : option Z;
    intervalId : option Z }.
End QuerySpec.

(** ** The trace monad

    A computation yields the list of calls it made, in order, and either
    a value or the exception that ended it. *)

Inductive event : Type :=
| ELogin (addr userName password : string)
| ERetrieveServiceContent
| EPrint (line : string)
| EQueryPerfCounterInt (this : MoRef.t)
| EUpdateCounterLevelMapping (this : MoRef.t) (counterLevelMap : list CounterLevelMapping.t)
| ERetrieveContent (cookie : string)
| ECreateContainerView (type : option MoType)
| EViewDestroy
| ESelect (message : string) (titles : list string)
| EText (message : string)
| EQueryAvailablePerfMetric (entity : option ManagedEntity.t) (intervalId : option Z)
| EQueryPerf (querySpec : list QuerySpec.t)
| ESubplots
| ETwinx (ylabel : string)
| EPlot (x y : list Z) (label : string)
| EPlotRatio (x : list Z) (y : list (Z * Z)) (label : string)
| EShow (ylabel title : string)
| EDisconnect.

Definition M (A : Type) : Type := (list event * outcome A)%type.

Definition ret {A : Type} (a : A) : M A := ([], Ret a).

Definition lift {A : Type} (o : outcome A) : M A := ([], o).

Definition call {A : Type} (ev : event) (answer : outcome A) : M A := ([ev], answer).

Definition emit (ev : event) : M unit := ([ev], Ret tt).

Definition bind {A B : Type} (m : M A) (k : A -> M B) : M B :=
  match m with
  | (t, Ret a) => let '(t', r) := k a in (t ++ t', r)
  | (t, Raise e) => (t, Raise e)
  end.

Notation "x <~ c ;; k" := (bind c (fun x => k))
  (at level 100, c at next level, right associativity).
Notation "c ;;; k" := (bind c (fun _ => k))
  (at level 100, right associativity).

(** [for x in l: body(x)]. *)
Fixpoint for_each {A : Type} (body : A -> M unit) (l : list A) : M unit :=
  match l with
  | [] => ret tt
  | x :: rest => body x ;;; for_each body rest
  end.

Definition trace {A : Type} (m : M A) : list event := fst m.
Definition result {A : Type} (m : M A) : outcome A := snd m.

(** [x.attr] on a value that may be [None]. *)
Definition attr {A B : Type} (x : option A) (f : A -> B) : M B :=
  match x with
  | Some a => ret (f a)
  | None => lift (Raise AttributeError)
  end.

(** ** The world outside the process

    One answer per outgoing call, as a function of the call's arguments.
    A run makes each call at most once (the plot calls apart, which are
    told apart by their arguments), so a function per call loses nothing.
    [cookies] holds the cookies of the SOAP transport's jar, in the
    jar's order, as it stands when [enable_guest] reads it.  A prompt
    answers with one of the values it was given, or [None] when the user
    cancels it, or raises (as questionary does for an empty list of
    choices). *)

Module ServiceContent.
Record t : Type := Build { perfManager : PerformanceManager.t }.
End ServiceContent.

Record World : Type := {
  (* zeep: the raw SOAP service *)
  Login : string -> string -> outcome unit;
  RetrieveServiceContent : outcome MoRef.t;
  QueryPerfCounterInt : MoRef.t -> outcome (list PerfCounterInfo.t);
  UpdateCounterLevelMapping :
    MoRef.t -> list CounterLevelMapping.t -> outcome unit;
  cookies : list Cookie.t;
  (* pyVmomi: the typed session *)
  RetrieveContent : string -> outcome ServiceContent.t;
  CreateContainerView : option MoType -> outcome (list ManagedEntity.t);
  QueryAvailablePerfMetric :
    option ManagedEntity.t -> option Z -> outcome (list PerfMetricId.t);
  QueryPerf : list QuerySpec.t -> outcome (list PerfEntityMetric.t);
  (* questionary *)
  pick_type : outcome (option MoType);
  pick_object : list (string * ManagedEntity.t) -> outcome (option ManagedEntity.t);
  pick_interval : list (string * Z) -> outcome (option Z);
  typed_mask : outcome (option string);
  pick_counter : list (string * CounterInfo.t) -> outcome (option CounterInfo.t);
  (* the clock: datetime.datetime.utcnow() *)
  utcnow : Z;
  (* matplotlib: ax1.plot and ax2.plot *)
  plot : list Z -> list Z -> string -> outcome unit;
  plot_ratio : list Z -> list (Z * Z) -> string -> outcome unit
}.

(** ** [enable_guest]

    Lines 28-40 build the zeep client from the WSDL on disk and send
    nothing; the model starts at the [Login] call. *)

(** The descriptor built at line 62 (and, from a table entry, at line 87). *)
Definition descriptor (id : Z) (c : PerfCounterInfo.t) : CounterInfo.t :=
  CounterInfo.Build id
    (PerfCounterInfo.groupInfo_key c +:+ "." +:+ PerfCounterInfo.nameInfo_key c)
    (PerfCounterInfo.rollupType c)
    (PerfCounterInfo.unitInfo_label c)
    (PerfCounterInfo.nameInfo_summary c).

(** The loop of lines 57-62: both lists grow by one element per counter. *)
Definition level_mappings (counters : list PerfCounterInfo.t)
  : list CounterLevelMapping.t * list CounterInfo.t :=
  fold_left
    (fun '(mappings, result) c =>
       (mappings ++ [CounterLevelMapping.Build (PerfCounterInfo.key c) 4],
        result ++ [descriptor (PerfCounterInfo.key c) c]))
    counters ([], []).

Definition enable_guest (w : World) (addr user password : string)
  : M (option string * list CounterInfo.t) :=
  call (ELogin addr user password) (Login w user password) ;;;
  perf_mgr_ref <~ call ERetrieveServiceContent (RetrieveServiceContent w) ;;
  emit (EPrint ("Type: " +:+ MoRef.type perf_mgr_ref)) ;;;
  emit (EPrint ("Value: " +:+ MoRef._value_1 perf_mgr_ref)) ;;;
  counters <~ call (EQueryPerfCounterInt perf_mgr_ref)
                   (QueryPerfCounterInt w perf_mgr_ref) ;;
  let '(mappings, result) := level_mappings counters in
  call (EUpdateCounterLevelMapping perf_mgr_ref mappings)
       (UpdateCounterLevelMapping w perf_mgr_ref mappings) ;;;
  session_cookie_value <~ lift (cookies_get (cookies w) "vmware_soap_session") ;;
  ret (session_cookie_value, result).

(** ** [get_entities], [get_counters], [get_intervals] *)

Definition get_entities (w : World) (type : option MoType)
  : M (list ManagedEntity.t) :=
  entities <~ call (ECreateContainerView type) (CreateContainerView w type) ;;
  emit EViewDestroy ;;;
  ret entities.

(** [{c.key: c for c in perf_mgr.perfCounter}]: a later entry replaces an
    earlier one with the same key. *)
Definition counter_table (perfCounter : list PerfCounterInfo.t)
  : gmap Z PerfCounterInfo.t :=
  fold_left (fun tbl c => <[PerfCounterInfo.key c := c]> tbl) perfCounter ∅.

Definition get_counters (w : World) (perf_mgr : PerformanceManager.t)
    (host : option ManagedEntity.t) (interval_id : option Z)
  : M (list CounterInfo.t) :=
  available <~ call (EQueryAvailablePerfMetric host interval_id)
                    (QueryAvailablePerfMetric w host interval_id) ;;
  let counter_info := counter_table (PerformanceManager.perfCounter perf_mgr) in
  ret (fold_left
         (fun counters m =>
            match counter_info !! PerfMetricId.counterId m with
            | Some c => counters ++ [descriptor (PerfMetricId.counterId m) c]
            | None => counters
            end)
         available []).

(** The title of a historical interval (line 108). *)
Definition interval_title (i : PerfInterval.t) (readable : string) : string :=
  "  ID: " +:+ Py.str_int (PerfInterval.samplingPeriod i) +:+ "s ("
  +:+ PerfInterval.name i +:+ ") - Level " +:+ Py.str_int (PerfInterval.level i)
  +:+ ", Retained for " +:+ readable.

Definition get_intervals (perf_mgr : PerformanceManager.t) : list (Z * string) :=
  let intervals := [] in
  let intervals :=
    intervals ++ [(20, "  ID: 20 seconds (Realtime) - Level 1, Retained for "
                        +:+ seconds_to_readable 3600)] in
  fold_left
    (fun intervals i =>
       let readable := seconds_to_readable (PerfInterval.length i) in
       intervals ++ [(PerfInterval.samplingPeriod i, interval_title i readable)])
    (PerformanceManager.historicalInterval perf_mgr) intervals.

(** ** [main] *)

Record Args : Type := { host : string; user : string; password : string }.

(** Line 159: [[*get_counters(perf_mgr, mo, interval), *guest_metrics]]. *)
Definition all_counters (entity_counters guest_metrics : list CounterInfo.t)
  : list CounterInfo.t :=
  entity_counters ++ guest_metrics.

(** Line 160: the comprehension over [all_counters]. *)
Definition filtered_counters (mask : option string) (all : list CounterInfo.t)
  : outcome (list CounterInfo.t) :=
  Py.comprehension_if
    (fun t => Py.startswith (Py.casefold (CounterInfo.name t)) mask) all.

(** The choice titles of the counter prompt (line 163). *)
Definition counter_title (counter : CounterInfo.t) : string :=
  CounterInfo.name counter +:+ "." +:+ CounterInfo.rollup_type counter
  +:+ " (" +:+ Py.str_int (CounterInfo.id counter) +:+ ")".

(** [interval != 20], where a cancelled prompt left [None]. *)
Definition interval_ne_20 (interval : option Z) : bool :=
  match interval with
  | Some i => negb (i =? 20)
  | None => true
  end.

(** Lines 168-173: the pair [(start_time, end_time)]. *)
Definition query_window (interval : option Z) (now : Z)
  : outcome (option Z * option Z) :=
  if interval_ne_20 interval then
    let end_time := now in
    match Py.datetime_sub end_time (Py.timedelta_days 365) with
    | Ret start_time => Ret (Some start_time, Some end_time)
    | Raise e => Raise e
    end
  else
    let end_time := None in
    let start_time := None in
    Ret (start_time, end_time).

(** Line 212: [[x / (interval * 10) for x in values]].  The body is
    evaluated once per sample, in order: [None * 10] is a [TypeError],
    and the division is [Py.truediv].  With no sample the body is never
    evaluated. *)
Definition ratio_series (interval : option Z) (values : list Z)
  : outcome (list (Z * Z)) :=
  Py.comprehension
    (fun x =>
       match interval with
       | None => Raise TypeError
       | Some i => Py.truediv x (i * 10)
       end)
    values.

(** What [main] holds when it reaches step 5 (line 167). *)
Record Selection : Type := {
  sel_mo : option ManagedEntity.t;
  sel_interval : option Z;
  sel_counter : option CounterInfo.t
}.

(** Lines 121-165: login, the typed session, and the four prompts.  The
    typed session exists from line 129 on, that is, once [enable_guest]
    has returned. *)
Definition main_select (w : World) (args : Args) : M Selection :=
  r <~ enable_guest w (host args) (user args) (password args) ;;
  let '(session_cookie_value, guest_metrics) := r in
  let cookie := "vmware_soap_session=" +:+ Py.fmt_opt session_cookie_value in
  type <~ call (ESelect "Pick a type:" ["HostSystem"; "VirtualMachine"; "Datastore"])
               (pick_type w) ;;
  content <~ call (ERetrieveContent cookie) (RetrieveContent w cookie) ;;
  entities <~ get_entities w type ;;
  let choices := map (fun h => (ManagedEntity.name h, h)) entities in
  mo <~ call (ESelect "Pick an object:" (map fst choices))
             (pick_object w choices) ;;
  let perf_mgr := ServiceContent.perfManager content in
  let choices := map (fun '(id, name) => (name, id)) (get_intervals perf_mgr) in
  interval <~ call (ESelect "Pick a performance interval:" (map fst choices))
                   (pick_interval w choices) ;;
  answer <~ call (EText "filter metrics by class (e.g. 'net' fo metrics like net.usage.average)")
                 (typed_mask w) ;;
  let mask := Py.or_None answer in
  entity_counters <~ get_counters w perf_mgr mo interval ;;
  let all_counters := all_counters entity_counters guest_metrics in
  filtered_counters <~ lift (filtered_counters mask all_counters) ;;
  let choices := map (fun counter => (counter_title counter, counter)) filtered_counters in
  counter <~ call (ESelect "Select metric to query:" (map fst choices))
                  (pick_counter w choices) ;;
  ret {| sel_mo := mo; sel_interval := interval; sel_counter := counter |}.

(** The body of the loop of lines 207-212. *)
Definition plot_series (w : World) (counter : CounterInfo.t) (interval : option Z)
    (timestamps : list Z) (m : PerfMetricSeries.t) : M unit :=
  let values := PerfMetricSeries.value m in
  let instance_label := Py.str_or (PerfMetricSeries.id_instance m) "(aggregate)" in
  call (EPlot timestamps values instance_label)
       (plot w timestamps values instance_label) ;;;
  if String.eqb (CounterInfo.name counter) "cpu.ready" then
    ratios <~ lift (ratio_series interval values) ;;
    call (EPlotRatio timestamps ratios instance_label)
         (plot_ratio w timestamps ratios instance_label)
  else ret tt.

(** Lines 191-222: the chart of the first record. *)
Definition build_graph (w : World) (sel : Selection) (counter : CounterInfo.t)
    (rec : PerfEntityMetric.t) : M unit :=
  let timestamps := PerfEntityMetric.sampleInfo rec in
  emit ESubplots ;;;
  (if String.eqb (CounterInfo.name counter) "cpu.ready"
   then emit (ETwinx (CounterInfo.name counter +:+ " %"))
   else ret tt) ;;;
  for_each (plot_series w counter (sel_interval sel) timestamps)
           (PerfEntityMetric.value rec) ;;;
  let ylabel := CounterInfo.name counter +:+ " (" +:+ CounterInfo.label counter +:+ ")" in
  mo_name <~ attr (sel_mo sel) ManagedEntity.name ;;
  let title := CounterInfo.name counter +:+ " on " +:+ mo_name
               +:+ String (ascii_of_nat 10) (CounterInfo.summary counter) in
  emit (EShow ylabel title).

(** Lines 175-182: the metric id and the query specification. *)
Definition query_spec (sel : Selection) (window : option Z * option Z)
    (counter : CounterInfo.t) : QuerySpec.t :=
  let '(start_time, end_time) := window in
  let metric_id := PerfMetricId.Build (CounterInfo.id counter) "*" in
  QuerySpec.Build (sel_mo sel) [metric_id] start_time end_time (sel_interval sel).

(** Lines 167-224.  [counter.id] at line 175 is the first attribute read
    of [counter]: it raises when the counter prompt was cancelled, and
    the later reads then find the object. *)
Definition main_query (w : World) (sel : Selection) : M unit :=
  window <~ lift (query_window (sel_interval sel) (utcnow w)) ;;
  counter <~ attr (sel_counter sel) (fun counter => counter) ;;
  let spec := query_spec sel window counter in
  perf_data <~ call (EQueryPerf [spec]) (QueryPerf w [spec]) ;;
  match perf_data with
  | [] =>
      emit (EPrint ("No data returned for " +:+ CounterInfo.name counter +:+ ".")) ;;;
      emit EDisconnect
  | rec :: _ =>
      build_graph w sel counter rec ;;;
      emit EDisconnect
  end.

Definition main (w : World) (args : Args) : M unit :=
  sel <~ main_select w args ;;
  main_query w sel.

(** ** Reference definitions and sample runs *)

(** The rendering as the specification words it: the four components in
    the order d, h, m, s, the zero ones left out, joined by one space,
    and ["0s"] when nothing is left. *)
Definition duration_components (d h m s : Z) : list string :=
  map (fun p => Py.str_int (fst p) +:+ snd p)
      (List.filter (fun p => negb (fst p =? 0))
                   [(d, "d"); (h, "h"); (m, "m"); (s, "s")]).

Definition render_duration (d h m s : Z) : string :=
  match duration_components d h m s with
  | [] => "0s"
  | parts => Py.join " " parts
  end.

(** A small installation: two counters, two historical intervals, one
    virtual machine.  The cookie jar, the text typed at the filter
    prompt and the answer of [QueryPerf] vary from run to run. *)
Definition cpu_ready : PerfCounterInfo.t :=
  PerfCounterInfo.Build 12 "cpu" "ready" "Time spent ready to run" "summation" "ms".

Definition net_usage : PerfCounterInfo.t :=
  PerfCounterInfo.Build 143 "net" "usage" "Network utilization" "average" "KBps".

Definition past_day : PerfInterval.t := PerfInterval.Build 300 "Past day" 1 86400.

Definition past_week : PerfInterval.t := PerfInterval.Build 1800 "Past week" 1 604800.

Definition web01 : ManagedEntity.t := ManagedEntity.Build "vm-42" "web01".

(** The user takes the first choice; questionary refuses an empty list. *)
Definition first_choice {A : Type} (choices : list (string * A)) : outcome (option A) :=
  match choices with
  | [] => Raise (Fault "ValueError: A list of choices needs to be provided.")
  | (_, value) :: _ => Ret (Some value)
  end.

(** matplotlib's [plot] refuses [x] and [y] of different lengths. *)
Definition matplotlib_plot {A : Type} (x : list Z) (y : list A) (label : string)
  : outcome unit :=
  if Nat.eqb (length x) (length y) then Ret tt
  else Raise (Fault "ValueError: x and y must have same first dimension").

(** A plotting layer that draws whatever it is given. *)
Definition lenient_plot {A : Type} (x : list Z) (y : list A) (label : string)
  : outcome unit :=
  Ret tt.

Definition lab_with (plotter : list Z -> list Z -> string -> outcome unit)
    (jar : list Cookie.t) (mask : option string)
    (perf : outcome (list PerfEntityMetric.t)) : World :=
  {| Login := fun _ _ => Ret tt;
     RetrieveServiceContent := Ret (MoRef.Build "PerformanceManager" "PerfMgr");
     QueryPerfCounterInt := fun _ => Ret [cpu_ready; net_usage];
     UpdateCounterLevelMapping := fun _ _ => Ret tt;
     cookies := jar;
     RetrieveContent := fun _ =>
       Ret (ServiceContent.Build
              (PerformanceManager.Build [cpu_ready; net_usage] [past_day; past_week]));
     CreateContainerView := fun _ => Ret [web01];
     QueryAvailablePerfMetric := fun _ _ => Ret [PerfMetricId.Build 143 ""];
     QueryPerf := fun _ => perf;
     pick_type := Ret (Some VirtualMachine);
     pick_object := first_choice;
     pick_interval := fun _ => Ret (Some 300);
     typed_mask := Ret mask;
     pick_counter := first_choice;
     utcnow := 63900000000000000;
     plot := plotter;
     plot_ratio := matplotlib_plot |}.

Definition lab : list Cookie.t -> option string ->
                 outcome (list PerfEntityMetric.t) -> World :=
  lab_with matplotlib_plot.

Definition jar : list Cookie.t := [Cookie.Build "vmware_soap_session" (Some "52c1f0aa")].

Definition lab_args : Args := {| host := "vc.lab"; user := "root"; password := "secret" |}.

(** A record with six timestamps and one series of five values. *)
Definition six_against_five : PerfEntityMetric.t :=
  PerfEntityMetric.Build [1; 2; 3; 4; 5; 6] [PerfMetricSeries.Build "" [10; 20; 30; 40; 50]].

(** The runs used below: a query that finds no record, one that the
    server refuses, one whose record is misaligned, and a run in which
    the user leaves the filter prompt empty.  The record of
    [lenient_lab] is misaligned too, and its plotting layer accepts it. *)
Definition no_data_lab : World := lab jar (Some "net") (Ret []).

Definition faulty_lab : World := lab jar (Some "net") (Raise (Fault "QueryPerf")).

Definition misaligned_lab : World := lab jar (Some "net") (Ret [six_against_five]).

Definition lenient_lab : World :=
  lab_with lenient_plot jar (Some "net") (Ret [six_against_five]).

(** A record with three timestamps and two series of three values. *)
Definition three_by_two : PerfEntityMetric.t :=
  PerfEntityMetric.Build [1; 2; 3]
    [PerfMetricSeries.Build "" [10; 20; 30]; PerfMetricSeries.Build "vmnic0" [7; 8; 9]].

Definition empty_mask_lab : World := lab jar (Some "") (Ret [six_against_five]).

Definition lab_selection : Selection :=
  {| sel_mo := Some web01; sel_interval := Some 300;
     sel_counter := Some (descriptor 143 net_usage) |}.

(** The number of [Disconnect] calls in a trace. *)
Definition is_disconnect (ev : event) : bool :=
  match ev with
  | EDisconnect => true
  | _ => false
  end.

Definition disconnects (t : list event) : nat :=
  length (List.filter is_disconnect t).

(** A computation that never disconnects, and one that disconnects
    exactly when it returns, as its last call. *)
Definition quiet {A : Type} (m : M A) : Prop := disconnects (trace m) = 0%nat.

Definition closes {A : Type} (m : M A) : Prop :=
  exists t : list event,
    disconnects t = 0%nat /\
    trace m = match result m with
              | Ret _ => t ++ [EDisconnect]
              | Raise _ => t
              end.

(** The [ax1.plot] calls of a trace, and the call the loop of lines
    207-212 makes for one series. *)
Definition is_plot (ev : event) : bool :=
  match ev with
  | EPlot _ _ _ => true
  | _ => false
  end.

Definition plots (t : list event) : list event := List.filter is_plot t.

Definition plot_call (timestamps : list Z) (m : PerfMetricSeries.t) : event :=
  EPlot timestamps (PerfMetricSeries.value m)
        (Py.str_or (PerfMetricSeries.id_instance m) "(aggregate)").

(** Where an exception of the plotting loop can come from: one of the
    two plot calls, or the division of line 212. *)
Definition raised_while_plotting (w : World) (counter : CounterInfo.t) (e : exn) : Prop :=
  (exists x y l, plot w x y l = Raise e) \/
  (exists x y l, plot_ratio w x y l = Raise e) \/
  (CounterInfo.name counter = "cpu.ready" /\
   (e = TypeError \/ e = ZeroDivisionError \/ e = OverflowError)).

(** ** Further reference definitions *)

(** An upper-case ASCII letter, and a string that holds one. *)
Definition is_upper (c : ascii) : bool :=
  let n := nat_of_ascii c in (Nat.leb 65 n && Nat.leb n 90)%bool.

Fixpoint has_upper (s : string) : bool :=
  match s with
  | EmptyString => false
  | String c rest => (is_upper c || has_upper rest)%bool
  end.

(** The entries of the counter table that carry a given key, in the
    server's order. *)
Definition entries_for (k : Z) (perfCounter : list PerfCounterInfo.t)
  : list PerfCounterInfo.t :=
  List.filter (fun c => PerfCounterInfo.key c =? k) perfCounter.

(** The calls of one kind that a computation makes, in order. *)
Definition calls {A : Type} (p : event -> bool) (m : M A) : list event :=
  List.filter p (trace m).

Definition is_login (ev : event) : bool :=
  match ev with
  | ELogin _ _ _ => true
  | _ => false
  end.

Definition is_update (ev : event) : bool :=
  match ev with
  | EUpdateCounterLevelMapping _ _ => true
  | _ => false
  end.

Definition is_retrieve_content (ev : event) : bool :=
  match ev with
  | ERetrieveContent _ => true
  | _ => false
  end.

Definition is_query (ev : event) : bool :=
  match ev with
  | EQueryPerf _ => true
  | _ => false
  end.

Definition is_twinx (ev : event) : bool :=
  match ev with
  | ETwinx _ => true
  | _ => false
  end.

Definition is_plot_ratio (ev : event) : bool :=
  match ev with
  | EPlotRatio _ _ _ => true
  | _ => false
  end.

(** A world whose [Login] is refused and that is otherwise [w]. *)
Definition deny_login (e : exn) (w : World) : World :=
  {| Login := fun _ _ => Raise e;
     RetrieveServiceContent := RetrieveServiceContent w;
     QueryPerfCounterInt := QueryPerfCounterInt w;
     UpdateCounterLevelMapping := UpdateCounterLevelMapping w;
     cookies := cookies w;
     RetrieveContent := RetrieveContent w;
     CreateContainerView := CreateContainerView w;
     QueryAvailablePerfMetric := QueryAvailablePerfMetric w;
     QueryPerf := QueryPerf w;
     pick_type := pick_type w;
     pick_object := pick_object w;
     pick_interval := pick_interval w;
     typed_mask := typed_mask w;
     pick_counter := pick_counter w;
     utcnow := utcnow w;
     plot := plot w;
     plot_ratio := plot_ratio w |}.

(** The cookie header that [main] gives the pyVmomi stub (line 128). *)
Definition stub_cookie (w : World) : string :=
  "vmware_soap_session="
  +:+ Py.fmt_opt (match cookies_get (cookies w) "vmware_soap_session" with
                  | Ret token => token
                  | Raise _ => None
                  end).

(** A run in which the login is refused. *)
Definition locked_out_lab : World :=
  deny_login (Fault "InvalidLogin") (lab jar (Some "net") (Ret [])).

(** Reading a duration text back into seconds: digits build a number,
    a unit letter adds it to the total with the unit's weight, and a
    space adds nothing. *)
Definition digit_value (c : ascii) : option Z :=
  let n := nat_of_ascii c in
  if (Nat.leb 48 n && Nat.leb n 57)%bool then Some (Z.of_nat n - 48) else None.

Definition unit_seconds (c : ascii) : Z :=
  if Ascii.eqb c "d" then 86400
  else if Ascii.eqb c "h" then 3600
  else if Ascii.eqb c "m" then 60
  else if Ascii.eqb c "s" then 1
  else 0.

Fixpoint read_duration (text : string) (total current : Z) : Z :=
  match text with
  | EmptyString => total
  | String c rest =>
      match digit_value c with
      | Some k => read_duration rest total (current * 10 + k)
      | None => read_duration rest (total + current * unit_seconds c) 0
      end
  end.

(** The number that a run of decimal digits adds to an accumulator. *)
Fixpoint uint_value (u : Decimal.uint) (acc : Z) : Z :=
  match u with
  | Decimal.Nil => acc
  | Decimal.D0 l => uint_value l (acc * 10 + 0)
  | Decimal.D1 l => uint_value l (acc * 10 + 1)
  | Decimal.D2 l => uint_value l (acc * 10 + 2)
  | Decimal.D3 l => uint_value l (acc * 10 + 3)
  | Decimal.D4 l => uint_value l (acc * 10 + 4)
  | Decimal.D5 l => uint_value l (acc * 10 + 5)
  | Decimal.D6 l => uint_value l (acc * 10 + 6)
  | Decimal.D7 l => uint_value l (acc * 10 + 7)
  | Decimal.D8 l => uint_value l (acc * 10 + 8)
  | Decimal.D9 l => uint_value l (acc * 10 + 9)
  end.

(** * Properties *)

(** ** The duration rendering *)

Section Strings.

Lemma append_nonempty_l (a b : string) : a <> "" -> a +:+ b <> "".
Proof. destruct a; [congruence | discriminate]. Qed.

Lemma append_nonempty_r (a b : string) : b <> "" -> a +:+ b <> "".
Proof. destruct a; simpl; [trivial | discriminate]. Qed.

Lemma str_or_nonempty (s default : string) : s <> "" -> Py.str_or s default = s.
Proof. destruct s; [congruence | reflexivity]. Qed.

Lemma unit_nonempty (n : Z) (c : ascii) : Py.str_int n +:+ String c "" <> "".
Proof. apply append_nonempty_r. discriminate. Qed.

End Strings.

Create HintDb nonempty.
#[local] Hint Resolve append_nonempty_l append_nonempty_r unit_nonempty : nonempty.

Lemma divmod_chain (n : Z) :
  0 <= n ->
  let d := n / 60 / 60 / 24 in
  let h := (n / 60 / 60) mod 24 in
  let m := (n / 60) mod 60 in
  let s := n mod 60 in
  n = d * 86400 + h * 3600 + m * 60 + s /\
  0 <= d /\ 0 <= h < 24 /\ 0 <= m < 60 /\ 0 <= s < 60.
Proof. intros Hn d h m s. subst d h m s. Z.div_mod_to_equations. lia. Qed.

Lemma decomposition_unique (n d h m s d' h' m' s' : Z) :
  n = d * 86400 + h * 3600 + m * 60 + s ->
  0 <= h < 24 -> 0 <= m < 60 -> 0 <= s < 60 ->
  n = d' * 86400 + h' * 3600 + m' * 60 + s' ->
  0 <= h' < 24 -> 0 <= m' < 60 -> 0 <= s' < 60 ->
  d' = d /\ h' = h /\ m' = m /\ s' = s.
Proof. lia. Qed.

(** The script's rendering is the specification's rendering of the
    components its three [divmod]s compute. *)
Lemma seconds_to_readable_render (n : Z) :
  seconds_to_readable n =
  render_duration (n / 60 / 60 / 24) ((n / 60 / 60) mod 24) ((n / 60) mod 60) (n mod 60).
Proof.
  unfold seconds_to_readable, render_duration, duration_components, Py.divmod, Py.truthy.
  cbn [List.filter map fst snd].
  destruct (n / 60 / 60 / 24 =? 0), ((n / 60 / 60) mod 24 =? 0),
    ((n / 60) mod 60 =? 0), (n mod 60 =? 0);
    cbn [negb app List.filter map fst snd Py.join];
    try reflexivity;
    apply str_or_nonempty; auto with nonempty.
Qed.

(** C8: for every [n >= 0] the rendering is that of the unique
    decomposition [n = d*86400 + h*3600 + m*60 + s] with [0 <= h < 24],
    [0 <= m < 60], [0 <= s < 60]: components in the order d, h, m, s, zero
    components omitted, and exactly ["0s"] when all four are zero, which
    happens exactly when [n = 0]. *)
Theorem seconds_to_readable_decomposition (n : Z) :
  0 <= n ->
  exists d h m s : Z,
    (n = d * 86400 + h * 3600 + m * 60 + s /\
     0 <= d /\ 0 <= h < 24 /\ 0 <= m < 60 /\ 0 <= s < 60) /\
    (forall d' h' m' s' : Z,
        n = d' * 86400 + h' * 3600 + m' * 60 + s' ->
        0 <= h' < 24 -> 0 <= m' < 60 -> 0 <= s' < 60 ->
        d' = d /\ h' = h /\ m' = m /\ s' = s) /\
    seconds_to_readable n = render_duration d h m s /\
    (d = 0 /\ h = 0 /\ m = 0 /\ s = 0 <-> n = 0) /\
    (n = 0 -> seconds_to_readable n = "0s").
Proof.
  intros Hn.
  pose proof (divmod_chain n Hn) as Hchain. cbv zeta in Hchain.
  exists (n / 60 / 60 / 24), ((n / 60 / 60) mod 24), ((n / 60) mod 60), (n mod 60).
  split; [exact Hchain |].
  destruct Hchain as (Heq & Hd & Hh & Hm & Hs).
  split.
  { intros d' h' m' s' Heq' Hh' Hm' Hs'.
    eapply decomposition_unique; eauto. }
  split; [apply seconds_to_readable_render |].
  split; [| intros ->; reflexivity].
  split; [intros (H1 & H2 & H3 & H4); rewrite H1, H2, H3, H4 in Heq; lia |].
  intros ->. repeat split; reflexivity.
Qed.

Lemma seconds_to_readable_decomposition_witness :
  0 <= 93784 /\
  seconds_to_readable 93784 = "1d 2h 3m 4s" /\
  exists d h m s : Z,
    (93784 = d * 86400 + h * 3600 + m * 60 + s /\
     0 <= d /\ 0 <= h < 24 /\ 0 <= m < 60 /\ 0 <= s < 60) /\
    (forall d' h' m' s' : Z,
        93784 = d' * 86400 + h' * 3600 + m' * 60 + s' ->
        0 <= h' < 24 -> 0 <= m' < 60 -> 0 <= s' < 60 ->
        d' = d /\ h' = h /\ m' = m /\ s' = s) /\
    seconds_to_readable 93784 = render_duration d h m s /\
    (d = 0 /\ h = 0 /\ m = 0 /\ s = 0 <-> 93784 = 0) /\
    (93784 = 0 -> seconds_to_readable 93784 = "0s").
Proof.
  split; [lia |].
  split; [reflexivity |].
  apply (seconds_to_readable_decomposition 93784). lia.
Defined.

(** ** Loops that append *)

Lemma fold_left_snoc {A B : Type} (f : A -> B) (l : list A) (init : list B) :
  fold_left (fun acc x => acc ++ [f x]) l init = init ++ map f l.
Proof.
  revert init. induction l as [| x l IH]; intros init; simpl.
  - now rewrite app_nil_r.
  - rewrite IH, <- app_assoc. reflexivity.
Qed.

Lemma level_mappings_from (counters : list PerfCounterInfo.t)
    (ms : list CounterLevelMapping.t) (rs : list CounterInfo.t) :
  fold_left
    (fun '(mappings, result) c =>
       (mappings ++ [CounterLevelMapping.Build (PerfCounterInfo.key c) 4],
        result ++ [descriptor (PerfCounterInfo.key c) c]))
    counters (ms, rs)
  = (ms ++ map (fun c => CounterLevelMapping.Build (PerfCounterInfo.key c) 4) counters,
     rs ++ map (fun c => descriptor (PerfCounterInfo.key c) c) counters).
Proof.
  revert ms rs. induction counters as [| c counters IH]; intros ms rs; simpl.
  - now rewrite !app_nil_r.
  - rewrite IH, <- !app_assoc. reflexivity.
Qed.

Lemma level_mappings_map (counters : list PerfCounterInfo.t) :
  level_mappings counters
  = (map (fun c => CounterLevelMapping.Build (PerfCounterInfo.key c) 4) counters,
     map (fun c => descriptor (PerfCounterInfo.key c) c) counters).
Proof. unfold level_mappings. now rewrite level_mappings_from. Qed.

(** ** The interval catalog *)

(** ** Reading a rendered duration back *)

Lemma append_cons (x : ascii) (a b : string) : String x a +:+ b = String x (a +:+ b).
Proof. reflexivity. Qed.

Lemma string_app_assoc (a b c : string) : (a +:+ b) +:+ c = a +:+ (b +:+ c).
Proof.
  induction a as [| x a IH]; [reflexivity |].
  rewrite !append_cons. f_equal. exact IH.
Qed.

Lemma read_uint (u : Decimal.uint) (rest : string) (total current : Z) :
  read_duration (NilEmpty.string_of_uint u +:+ rest) total current
  = read_duration rest total (uint_value u current).
Proof.
  revert current. induction u; intros current; cbn [NilEmpty.string_of_uint];
    [reflexivity | ..]; rewrite append_cons; cbn [read_duration]; apply IHu.
Qed.

Lemma uint_value_acc (u : Decimal.uint) (p : positive) :
  uint_value u (Z.pos p) = Z.pos (Pos.of_uint_acc u p).
Proof.
  revert p. induction u; intros p; cbn [uint_value Pos.of_uint_acc];
    [reflexivity | ..];
    rewrite <- IHu; f_equal; lia.
Qed.

Lemma uint_value_of_uint (u : Decimal.uint) : uint_value u 0 = Z.of_N (Pos.of_uint u).
Proof.
  induction u; cbn [uint_value Pos.of_uint]; [reflexivity | exact IHu | ..];
    cbn [Z.mul Z.add Z.of_N]; apply uint_value_acc.
Qed.

Lemma read_str_int (v : Z) (rest : string) (total : Z) :
  0 <= v ->
  read_duration (Py.str_int v +:+ rest) total 0 = read_duration rest total v.
Proof.
  intros Hv. destruct v as [| p | p]; [reflexivity | | lia].
  unfold Py.str_int. cbn [Z.to_int NilZero.string_of_int].
  pose proof (DecimalPos.Unsigned.of_to p) as Hp.
  unfold NilZero.string_of_uint.
  destruct (Pos.to_uint p) eqn:Hu; [discriminate | ..];
    rewrite read_uint, uint_value_of_uint, Hp; reflexivity.
Qed.

Lemma read_unit (c : ascii) (rest : string) (total current : Z) :
  digit_value c = None ->
  read_duration (String c rest) total current
  = read_duration rest (total + current * unit_seconds c) 0.
Proof. intros H. cbn [read_duration]. now rewrite H. Qed.

Lemma append_nil_l (a : string) : "" +:+ a = a.
Proof. reflexivity. Qed.

Ltac read_tokens :=
  repeat first
    [ rewrite append_nil_l
    | rewrite append_cons
    | rewrite string_app_assoc
    | rewrite read_unit by reflexivity
    | rewrite read_str_int by lia ];
  cbn [read_duration].

Lemma render_duration_reads_back (d h m s : Z) :
  0 <= d -> 0 <= h -> 0 <= m -> 0 <= s ->
  read_duration (render_duration d h m s) 0 0 = d * 86400 + h * 3600 + m * 60 + s.
Proof.
  intros Hd Hh Hm Hs.
  unfold render_duration, duration_components. cbn [List.filter map fst snd].
  destruct (Z.eqb_spec d 0), (Z.eqb_spec h 0), (Z.eqb_spec m 0), (Z.eqb_spec s 0);
    cbn [negb List.filter map fst snd Py.join];
    try (change (read_duration "0s" 0 0) with 0; lia);
    read_tokens; unfold unit_seconds; cbn [Ascii.eqb Bool.eqb]; lia.
Qed.

(** ** The interval catalog, entry by entry *)

Lemma interval_title_rendered (i : PerfInterval.t) :
  interval_title i (seconds_to_readable (PerfInterval.length i))
  = "  ID: " +:+ Py.str_int (PerfInterval.samplingPeriod i) +:+ "s ("
    +:+ PerfInterval.name i +:+ ") - Level "
    +:+ Py.str_int (PerfInterval.level i) +:+ ", Retained for "
    +:+ render_duration (PerfInterval.length i / 86400)
                        ((PerfInterval.length i / 3600) mod 24)
                        ((PerfInterval.length i / 60) mod 60)
                        (PerfInterval.length i mod 60).
Proof.
  unfold interval_title. rewrite seconds_to_readable_render.
  replace (PerfInterval.length i / 60 / 60 / 24) with (PerfInterval.length i / 86400)
    by (Z.div_mod_to_equations; lia).
  replace (PerfInterval.length i / 60 / 60) with (PerfInterval.length i / 3600)
    by (Z.div_mod_to_equations; lia).
  reflexivity.
Qed.

(** C9: the catalog starts with the realtime entry, whose id is 20 and
    whose title shows 20 seconds, level 1 and the retention 1h (3600
    seconds); it continues with one entry per historical interval, in
    the server's order, whose id is the interval's sampling period and
    whose title shows that period, the interval's name and its level in
    decimal and its retention as the duration text of its days, hours,
    minutes and seconds; a retention that is not negative can be read
    back from that text, so the text determines it. *)
Theorem get_intervals_catalog (perf_mgr : PerformanceManager.t) :
  get_intervals perf_mgr
  = (20, "  ID: 20 seconds (Realtime) - Level 1, Retained for 1h")
    :: map (fun i =>
              (PerfInterval.samplingPeriod i,
               "  ID: " +:+ Py.str_int (PerfInterval.samplingPeriod i) +:+ "s ("
               +:+ PerfInterval.name i +:+ ") - Level "
               +:+ Py.str_int (PerfInterval.level i) +:+ ", Retained for "
               +:+ render_duration (PerfInterval.length i / 86400)
                                   ((PerfInterval.length i / 3600) mod 24)
                                   ((PerfInterval.length i / 60) mod 60)
                                   (PerfInterval.length i mod 60)))
           (PerformanceManager.historicalInterval perf_mgr)
  /\ render_duration (3600 / 86400) ((3600 / 3600) mod 24) ((3600 / 60) mod 60) (3600 mod 60)
     = "1h"
  /\ Forall (fun i =>
               0 <= PerfInterval.length i ->
               read_duration
                 (render_duration (PerfInterval.length i / 86400)
                                  ((PerfInterval.length i / 3600) mod 24)
                                  ((PerfInterval.length i / 60) mod 60)
                                  (PerfInterval.length i mod 60)) 0 0
               = PerfInterval.length i)
            (PerformanceManager.historicalInterval perf_mgr)
  /\ map fst (get_intervals perf_mgr)
     = 20 :: map PerfInterval.samplingPeriod (PerformanceManager.historicalInterval perf_mgr)
  /\ length (get_intervals perf_mgr)
     = S (length (PerformanceManager.historicalInterval perf_mgr)).
Proof.
  assert (Hcat : get_intervals perf_mgr
                 = (20, "  ID: 20 seconds (Realtime) - Level 1, Retained for 1h")
                   :: map (fun i =>
                             (PerfInterval.samplingPeriod i,
                              interval_title i (seconds_to_readable (PerfInterval.length i))))
                          (PerformanceManager.historicalInterval perf_mgr)).
  { unfold get_intervals. cbv zeta.
    rewrite (fold_left_snoc
               (fun i => (PerfInterval.samplingPeriod i,
                          interval_title i (seconds_to_readable (PerfInterval.length i))))).
    reflexivity. }
  split.
  { rewrite Hcat. f_equal. apply map_ext. intros i.
    now rewrite interval_title_rendered. }
  split; [reflexivity |].
  split.
  { apply Forall_forall. intros i _ Hlen.
    rewrite render_duration_reads_back by (Z.div_mod_to_equations; lia).
    Z.div_mod_to_equations. lia. }
  rewrite Hcat. cbn [map fst length]. rewrite map_map, length_map.
  split; reflexivity.
Qed.

Lemma get_intervals_catalog_witness :
  get_intervals (PerformanceManager.Build [cpu_ready; net_usage] [past_day; past_week])
  = [(20, "  ID: 20 seconds (Realtime) - Level 1, Retained for 1h");
     (300, "  ID: 300s (Past day) - Level 1, Retained for 1d");
     (1800, "  ID: 1800s (Past week) - Level 1, Retained for 7d")] /\
  get_intervals (PerformanceManager.Build []
                   [PerfInterval.Build 7200 "Custom" 3 93784; PerfInterval.Build 60 "Idle" 2 0])
  = [(20, "  ID: 20 seconds (Realtime) - Level 1, Retained for 1h");
     (7200, "  ID: 7200s (Custom) - Level 3, Retained for 1d 2h 3m 4s");
     (60, "  ID: 60s (Idle) - Level 2, Retained for 0s")].
Proof.
  split.
  - rewrite (proj1 (get_intervals_catalog
                      (PerformanceManager.Build [cpu_ready; net_usage] [past_day; past_week]))).
    reflexivity.
  - rewrite (proj1 (get_intervals_catalog
                      (PerformanceManager.Build []
                         [PerfInterval.Build 7200 "Custom" 3 93784;
                          PerfInterval.Build 60 "Idle" 2 0]))).
    reflexivity.
Defined.

(** ** Session establishment *)

Section EnableGuest.

Variable w : World.
Variables addr user password : string.

(** The run of [enable_guest] once its first three calls have answered. *)
Lemma enable_guest_run (ref : MoRef.t) (counters : list PerfCounterInfo.t) :
  Login w user password = Ret tt ->
  RetrieveServiceContent w = Ret ref ->
  QueryPerfCounterInt w ref = Ret counters ->
  let mappings := map (fun c => CounterLevelMapping.Build (PerfCounterInfo.key c) 4) counters in
  let descriptors := map (fun c => descriptor (PerfCounterInfo.key c) c) counters in
  enable_guest w addr user password
  = ([ELogin addr user password; ERetrieveServiceContent;
      EPrint ("Type: " +:+ MoRef.type ref); EPrint ("Value: " +:+ MoRef._value_1 ref);
      EQueryPerfCounterInt ref; EUpdateCounterLevelMapping ref mappings],
     match UpdateCounterLevelMapping w ref mappings with
     | Ret _ =>
         match cookies_get (cookies w) "vmware_soap_session" with
         | Ret token => Ret (token, descriptors)
         | Raise e => Raise e
         end
     | Raise e => Raise e
     end).
Proof.
  intros Hlogin Hcontent Hcounters mappings descriptors.
  unfold enable_guest, bind, call, emit, ret, lift.
  rewrite Hlogin, Hcontent. cbn. rewrite Hcounters, level_mappings_map.
  fold mappings descriptors. cbn.
  destruct (UpdateCounterLevelMapping w ref mappings); [| reflexivity].
  destruct (cookies_get (cookies w) "vmware_soap_session"); reflexivity.
Qed.

(** C10: once the counter table has been read, the batch update carries
    one mapping per table entry and, if the update returns, the
    descriptor list that is returned with the token the jar gives (or
    lost to the jar's exception) has one descriptor per entry: both
    lists have the table's length, every mapping has level 4, and entry
    [i] of the table, mapping [i] and descriptor [i] carry the same
    counter id. *)
Theorem enable_guest_one_mapping_per_counter
    (ref : MoRef.t) (counters : list PerfCounterInfo.t) :
  Login w user password = Ret tt ->
  RetrieveServiceContent w = Ret ref ->
  QueryPerfCounterInt w ref = Ret counters ->
  exists (mappings : list CounterLevelMapping.t) (descriptors : list CounterInfo.t),
    last (trace (enable_guest w addr user password))
      = Some (EUpdateCounterLevelMapping ref mappings) /\
    (forall u, UpdateCounterLevelMapping w ref mappings = Ret u ->
       result (enable_guest w addr user password)
       = match cookies_get (cookies w) "vmware_soap_session" with
         | Ret token => Ret (token, descriptors)
         | Raise e => Raise e
         end) /\
    length mappings = length counters /\
    length descriptors = length counters /\
    Forall (fun m => CounterLevelMapping.aggregateLevel m = 4) mappings /\
    map CounterLevelMapping.counterId mappings = map PerfCounterInfo.key counters /\
    map CounterInfo.id descriptors = map PerfCounterInfo.key counters /\
    (forall (i : nat) (c : PerfCounterInfo.t),
       counters !! i = Some c ->
       mappings !! i = Some (CounterLevelMapping.Build (PerfCounterInfo.key c) 4) /\
       exists d, descriptors !! i = Some d /\ CounterInfo.id d = PerfCounterInfo.key c).
Proof.
  intros Hlogin Hcontent Hcounters.
  pose proof (enable_guest_run ref counters Hlogin Hcontent Hcounters) as Hrun.
  cbv zeta in Hrun.
  exists (map (fun c => CounterLevelMapping.Build (PerfCounterInfo.key c) 4) counters),
         (map (fun c => descriptor (PerfCounterInfo.key c) c) counters).
  rewrite Hrun. unfold trace, result. cbn [fst snd].
  split; [reflexivity |].
  split; [intros u ->; reflexivity |].
  rewrite !length_map, !map_map. cbn.
  split; [reflexivity |]. split; [reflexivity |].
  split; [apply Forall_forall; intros m Hin; apply list_elem_of_fmap in Hin as (c & -> & _); reflexivity |].
  split; [reflexivity |]. split; [reflexivity |].
  intros i c Hi. rewrite !list_lookup_fmap, Hi. cbn.
  split; [reflexivity |]. eexists. split; reflexivity.
Qed.

(** C3, as the code has it: [enable_guest] never inspects the token.
    Whenever it returns, the token is what the jar's lookup of
    [vmware_soap_session] returned; when the four SOAP calls answer and
    the lookup returns, it returns that token with the descriptors; and
    for a jar that holds no cookie of that name the lookup returns the
    absent token, which is then the success value. *)
Theorem enable_guest_returns_cookie_lookup :
  (forall token descriptors,
      result (enable_guest w addr user password) = Ret (token, descriptors) ->
      cookies_get (cookies w) "vmware_soap_session" = Ret token) /\
  (forall ref counters token,
      Login w user password = Ret tt ->
      RetrieveServiceContent w = Ret ref ->
      QueryPerfCounterInt w ref = Ret counters ->
      UpdateCounterLevelMapping w ref (fst (level_mappings counters)) = Ret tt ->
      cookies_get (cookies w) "vmware_soap_session" = Ret token ->
      result (enable_guest w addr user password)
      = Ret (token, snd (level_mappings counters))) /\
  (Forall (fun cookie => Cookie.name cookie <> "vmware_soap_session") (cookies w) ->
   cookies_get (cookies w) "vmware_soap_session" = Ret None).
Proof.
  split; [| split].
  - intros token descriptors. unfold enable_guest, bind, call, emit, ret, lift, result.
    destruct (Login w user password) as [[] | e1]; cbn; [| discriminate].
    destruct (RetrieveServiceContent w) as [ref | e2]; cbn; [| discriminate].
    destruct (QueryPerfCounterInt w ref) as [counters | e3]; cbn; [| discriminate].
    destruct (level_mappings counters) as [mappings descs]. cbn.
    destruct (UpdateCounterLevelMapping w ref mappings); cbn; [| discriminate].
    destruct (cookies_get (cookies w) "vmware_soap_session"); cbn; [| discriminate].
    intros [= <- _]. reflexivity.
  - intros ref counters token Hlogin Hcontent Hcounters Hupdate Htoken.
    rewrite (enable_guest_run ref counters Hlogin Hcontent Hcounters).
    rewrite level_mappings_map in *. cbn [fst snd] in *.
    unfold result. cbn [snd]. now rewrite Hupdate, Htoken.
  - intros Hnone. unfold cookies_get.
    enough (Hfind : find_no_duplicates "vmware_soap_session" (cookies w) None = Ret None)
      by (now rewrite Hfind).
    induction Hnone as [| cookie rest Hname _ IH]; [reflexivity |].
    cbn [find_no_duplicates].
    destruct (String.eqb_spec (Cookie.name cookie) "vmware_soap_session");
      [contradiction | exact IH].
Qed.

End EnableGuest.

Lemma enable_guest_one_mapping_per_counter_witness :
  Login (lab jar None (Ret [])) "root" "secret" = Ret tt /\
  RetrieveServiceContent (lab jar None (Ret []))
    = Ret (MoRef.Build "PerformanceManager" "PerfMgr") /\
  QueryPerfCounterInt (lab jar None (Ret [])) (MoRef.Build "PerformanceManager" "PerfMgr")
    = Ret [cpu_ready; net_usage] /\
  exists (mappings : list CounterLevelMapping.t) (descriptors : list CounterInfo.t),
    last (trace (enable_guest (lab jar None (Ret [])) "vc.lab" "root" "secret"))
      = Some (EUpdateCounterLevelMapping (MoRef.Build "PerformanceManager" "PerfMgr") mappings) /\
    length mappings = 2%nat /\
    length descriptors = 2%nat /\
    map CounterLevelMapping.counterId mappings = [12; 143] /\
    map CounterInfo.id descriptors = [12; 143].
Proof.
  repeat (split; [reflexivity |]).
  destruct (enable_guest_one_mapping_per_counter
              (lab jar None (Ret [])) "vc.lab" "root" "secret"
              (MoRef.Build "PerformanceManager" "PerfMgr") [cpu_ready; net_usage]
              eq_refl eq_refl eq_refl)
    as (mappings & descriptors & Hlast & _ & Hlm & Hld & _ & Hids & Hdesc & _).
  exists mappings, descriptors. repeat split; assumption.
Defined.

(** C3 fails as stated: with a jar that holds no [vmware_soap_session]
    cookie, [enable_guest] returns the absent token as a success value. *)
Lemma enable_guest_absent_token_is_success :
  cookies (lab [] None (Ret [])) = [] /\
  result (enable_guest (lab [] None (Ret [])) "vc.lab" "root" "secret")
  = Ret (None, [descriptor 12 cpu_ready; descriptor 143 net_usage]).
Proof. split; vm_compute; reflexivity. Qed.

Lemma enable_guest_returns_cookie_lookup_witness :
  result (enable_guest (lab jar None (Ret [])) "vc.lab" "root" "secret")
  = Ret (Some "52c1f0aa", [descriptor 12 cpu_ready; descriptor 143 net_usage]) /\
  cookies_get (cookies (lab jar None (Ret []))) "vmware_soap_session" = Ret (Some "52c1f0aa") /\
  Forall (fun cookie => Cookie.name cookie <> "vmware_soap_session")
         (cookies (lab [] None (Ret []))) /\
  cookies_get (cookies (lab [] None (Ret []))) "vmware_soap_session" = Ret None.
Proof.
  split; [vm_compute; reflexivity |].
  split.
  - apply (proj1 (enable_guest_returns_cookie_lookup
                    (lab jar None (Ret [])) "vc.lab" "root" "secret")
                 (Some "52c1f0aa") [descriptor 12 cpu_ready; descriptor 143 net_usage]).
    vm_compute; reflexivity.
  - split; [constructor |].
    apply (proj2 (proj2 (enable_guest_returns_cookie_lookup
                           (lab [] None (Ret [])) "vc.lab" "root" "secret"))).
    constructor.
Defined.

(** ** Traces of composed computations *)

Lemma bind_call_ret {A B : Type} (ev : event) (a : A) (k : A -> M B) :
  bind (call ev (Ret a)) k = (ev :: trace (k a), result (k a)).
Proof. unfold bind, call, trace, result. now destruct (k a). Qed.

Lemma bind_lift_ret {A B : Type} (a : A) (k : A -> M B) :
  bind (lift (Ret a)) k = k a.
Proof. unfold bind, lift. now destruct (k a). Qed.

Lemma bind_ret {A B : Type} (a : A) (k : A -> M B) : bind (ret a) k = k a.
Proof. apply bind_lift_ret. Qed.

Lemma bind_returns {A B : Type} (m : M A) (k : A -> M B) (t : list event) (a : A) :
  m = (t, Ret a) -> bind m k = (t ++ trace (k a), result (k a)).
Proof. intros ->. unfold bind, trace, result. now destruct (k a). Qed.

Lemma bind_raises {A B : Type} (m : M A) (k : A -> M B) (t : list event) (e : exn) :
  m = (t, Raise e) -> bind m k = (t, Raise e).
Proof. now intros ->. Qed.

Lemma head_bind_call {A B : Type} (ev : event) (answer : outcome A) (k : A -> M B) :
  head (trace (bind (call ev answer) k)) = Some ev.
Proof.
  destruct answer as [a | e]; [| reflexivity].
  rewrite bind_call_ret. reflexivity.
Qed.

(** ** The query window *)

Lemma query_window_realtime (now : Z) : query_window (Some 20) now = Ret (None, None).
Proof. reflexivity. Qed.

Lemma query_window_historical (interval now : Z) :
  interval <> 20 ->
  Py.timedelta_days 365 <= now ->
  query_window (Some interval) now = Ret (Some (now - Py.timedelta_days 365), Some now).
Proof.
  intros Hne Hnow. unfold query_window, interval_ne_20, Py.datetime_sub.
  destruct (Z.eqb_spec interval 20) as [-> | _]; [congruence |]. cbn [negb].
  destruct (Z.ltb_spec (now - Py.timedelta_days 365) 0); [lia | reflexivity].
Qed.

(** C2: for a selected interval id and a clock at least 365 days past
    [datetime.min], the first call of step 5 is [QueryPerf] with a
    specification for that interval whose bounds are both unset when the
    id is 20 and otherwise are [now - 365 days] and [now], so that end
    minus start is exactly 365 days (31 536 000 000 000 microseconds). *)
Theorem main_query_window (w : World) (mo : option ManagedEntity.t)
    (interval : Z) (counter : CounterInfo.t) :
  Py.timedelta_days 365 <= utcnow w ->
  exists spec : QuerySpec.t,
    head (trace (main_query w {| sel_mo := mo; sel_interval := Some interval;
                                 sel_counter := Some counter |}))
      = Some (EQueryPerf [spec]) /\
    QuerySpec.intervalId spec = Some interval /\
    (interval = 20 ->
       QuerySpec.startTime spec = None /\ QuerySpec.endTime spec = None) /\
    (interval <> 20 ->
       exists start_time end_time : Z,
         QuerySpec.startTime spec = Some start_time /\
         QuerySpec.endTime spec = Some end_time /\
         end_time = utcnow w /\
         end_time - start_time = Py.timedelta_days 365 /\
         Py.timedelta_days 365 = 31536000000000).
Proof.
  intros Hnow.
  set (sel := {| sel_mo := mo; sel_interval := Some interval; sel_counter := Some counter |}).
  assert (Hwin : exists window,
             query_window (Some interval) (utcnow w) = Ret window /\
             (interval = 20 -> window = (None, None)) /\
             (interval <> 20 ->
                window = (Some (utcnow w - Py.timedelta_days 365), Some (utcnow w)))).
  { destruct (decide (interval = 20)) as [-> | Hne].
    - exists (None, None). rewrite query_window_realtime. repeat split; congruence.
    - eexists. rewrite (query_window_historical _ _ Hne Hnow).
      repeat split; congruence. }
  destruct Hwin as (window & Hwindow & H20 & Hhist).
  exists (query_spec sel window counter).
  split.
  { unfold main_query. cbn [sel_interval sel_counter sel].
    rewrite Hwindow, bind_lift_ret. unfold attr. rewrite bind_ret.
    cbv zeta. apply head_bind_call. }
  split; [now destruct window |].
  split.
  - intros Heq. rewrite (H20 Heq). split; reflexivity.
  - intros Hne. rewrite (Hhist Hne).
    exists (utcnow w - Py.timedelta_days 365), (utcnow w). cbn.
    repeat split; try reflexivity. lia.
Qed.

Lemma main_query_window_witness :
  Py.timedelta_days 365 <= utcnow (lab jar (Some "net") (Ret [])) /\
  exists spec : QuerySpec.t,
    head (trace (main_query (lab jar (Some "net") (Ret []))
                   {| sel_mo := Some web01; sel_interval := Some 300;
                      sel_counter := Some (descriptor 143 net_usage) |}))
      = Some (EQueryPerf [spec]) /\
    QuerySpec.startTime spec = Some 63868464000000000 /\
    QuerySpec.endTime spec = Some 63900000000000000.
Proof.
  split; [vm_compute; discriminate |].
  destruct (main_query_window (lab jar (Some "net") (Ret [])) (Some web01) 300
              (descriptor 143 net_usage))
    as (spec & Hhead & _ & _ & Hhist); [vm_compute; discriminate |].
  destruct Hhist as (start_time & end_time & Hs & He & Hnow & Hdiff & Hyear); [lia |].
  exists spec. rewrite Hs, He. split; [exact Hhead |].
  cbn in Hnow. split; f_equal; lia.
Defined.

(** ** The no-data outcome *)

(** C6: when the selection phase has returned and the query answers
    with no record, [main] returns normally (no exception), having
    printed the no-data line and then disconnected the typed session as
    its last call. *)
Theorem main_no_data (w : World) (args : Args) (t : list event) (sel : Selection)
    (window : option Z * option Z) (counter : CounterInfo.t) :
  main_select w args = (t, Ret sel) ->
  query_window (sel_interval sel) (utcnow w) = Ret window ->
  sel_counter sel = Some counter ->
  QueryPerf w [query_spec sel window counter] = Ret [] ->
  main w args
  = (t ++ [EQueryPerf [query_spec sel window counter];
           EPrint ("No data returned for " +:+ CounterInfo.name counter +:+ ".");
           EDisconnect],
     Ret tt)
  /\ last (trace (main w args)) = Some EDisconnect.
Proof.
  intros Hsel Hwindow Hcounter Hperf.
  assert (Hmain : main w args
                  = (t ++ [EQueryPerf [query_spec sel window counter];
                           EPrint ("No data returned for " +:+ CounterInfo.name counter +:+ ".");
                           EDisconnect],
                     Ret tt)).
  { unfold main. rewrite (bind_returns _ _ _ _ Hsel).
    unfold main_query. rewrite Hwindow, bind_lift_ret, Hcounter.
    unfold attr. rewrite bind_ret. cbv zeta. rewrite Hperf, bind_call_ret.
    reflexivity. }
  split; [exact Hmain |].
  rewrite Hmain. unfold trace. cbn [fst]. now rewrite last_app.
Qed.

Lemma main_no_data_witness :
  main_select no_data_lab lab_args
    = (trace (main_select no_data_lab lab_args), Ret lab_selection) /\
  query_window (sel_interval lab_selection) (utcnow no_data_lab)
    = Ret (Some 63868464000000000, Some 63900000000000000) /\
  sel_counter lab_selection = Some (descriptor 143 net_usage) /\
  result (main no_data_lab lab_args) = Ret tt /\
  last (trace (main no_data_lab lab_args)) = Some EDisconnect.
Proof.
  assert (Hsel : main_select no_data_lab lab_args
                 = (trace (main_select no_data_lab lab_args), Ret lab_selection))
    by (vm_compute; reflexivity).
  assert (Hwindow : query_window (sel_interval lab_selection) (utcnow no_data_lab)
                    = Ret (Some 63868464000000000, Some 63900000000000000))
    by (vm_compute; reflexivity).
  destruct (main_no_data no_data_lab lab_args _ lab_selection _
              (descriptor 143 net_usage) Hsel Hwindow eq_refl eq_refl)
    as [Hmain Hlast].
  split; [exact Hsel |]. split; [exact Hwindow |]. split; [reflexivity |].
  split; [| exact Hlast].
  rewrite Hmain. reflexivity.
Defined.

(** ** Disconnecting *)

Lemma disconnects_app (t1 t2 : list event) :
  disconnects (t1 ++ t2) = (disconnects t1 + disconnects t2)%nat.
Proof. unfold disconnects. now rewrite List.filter_app, length_app. Qed.

Section Quiet.

Context {A B : Type}.

Lemma quiet_ret (a : A) : quiet (ret a).
Proof. reflexivity. Qed.

Lemma quiet_lift (o : outcome A) : quiet (lift o).
Proof. reflexivity. Qed.

Lemma quiet_attr (x : option A) (f : A -> B) : quiet (attr x f).
Proof. now destruct x. Qed.

Lemma quiet_call (ev : event) (answer : outcome A) :
  is_disconnect ev = false -> quiet (call ev answer).
Proof. intros H. unfold quiet, call, trace, disconnects. cbn. now rewrite H. Qed.

Lemma quiet_bind (m : M A) (k : A -> M B) :
  quiet m -> (forall a, quiet (k a)) -> quiet (bind m k).
Proof.
  destruct m as [t [a | e]]; intros Hm Hk; [| exact Hm].
  rewrite (bind_returns _ k t a eq_refl). unfold quiet, trace in *. cbn [fst] in *.
  rewrite disconnects_app, Hm. apply Hk.
Qed.

Lemma closes_bind (m : M A) (k : A -> M B) :
  quiet m -> (forall a, closes (k a)) -> closes (bind m k).
Proof.
  destruct m as [t [a | e]]; intros Hm Hk.
  - destruct (Hk a) as (t' & Hquiet & Htrace).
    exists (t ++ t'). rewrite (bind_returns _ k t a eq_refl).
    unfold quiet, trace, result in *. cbn [fst snd] in *.
    split; [rewrite disconnects_app, Hm; exact Hquiet |].
    rewrite Htrace. destruct (k a).2; [now rewrite app_assoc | reflexivity].
  - exists t. split; [exact Hm | reflexivity].
Qed.

End Quiet.

Lemma quiet_emit (ev : event) : is_disconnect ev = false -> quiet (emit ev).
Proof. apply (quiet_call (A := unit)). Qed.

Lemma quiet_for_each {A : Type} (body : A -> M unit) (l : list A) :
  (forall x, quiet (body x)) -> quiet (for_each body l).
Proof.
  intros Hbody. induction l as [| x l IH]; cbn [for_each].
  - apply quiet_ret.
  - apply quiet_bind; auto.
Qed.

Lemma closes_disconnect : closes (emit EDisconnect).
Proof. exists []. split; reflexivity. Qed.

Ltac quiet_step :=
  match goal with
  | |- quiet (bind _ _) => apply quiet_bind; [| intros ?]
  | |- quiet (call _ _) => apply quiet_call; reflexivity
  | |- quiet (emit _) => apply quiet_emit; reflexivity
  | |- quiet (ret _) => apply quiet_ret
  | |- quiet (lift _) => apply quiet_lift
  | |- quiet (attr _ _) => apply quiet_attr
  | |- quiet (for_each _ _) => apply quiet_for_each; intros ?
  | |- quiet (let '(_, _) := ?p in _) => destruct p
  | |- quiet (if ?b then _ else _) => destruct b
  end.

Lemma quiet_enable_guest (w : World) (addr user password : string) :
  quiet (enable_guest w addr user password).
Proof. unfold enable_guest. repeat quiet_step. Qed.

Lemma quiet_main_select (w : World) (args : Args) : quiet (main_select w args).
Proof.
  unfold main_select, get_entities, get_counters.
  repeat first [quiet_step | apply quiet_enable_guest].
Qed.

Lemma quiet_build_graph (w : World) (sel : Selection) (counter : CounterInfo.t)
    (rec : PerfEntityMetric.t) :
  quiet (build_graph w sel counter rec).
Proof. unfold build_graph, plot_series. repeat quiet_step. Qed.

Lemma closes_main_query (w : World) (sel : Selection) : closes (main_query w sel).
Proof.
  unfold main_query.
  apply closes_bind; [apply quiet_lift | intros window].
  apply closes_bind; [apply quiet_attr | intros counter]. cbv zeta.
  apply closes_bind; [apply quiet_call; reflexivity | intros [| rec rest]].
  - apply closes_bind; [apply quiet_emit; reflexivity | intros _].
    apply closes_disconnect.
  - apply closes_bind; [apply quiet_build_graph | intros _].
    apply closes_disconnect.
Qed.

(** C7, as the code has it: [main] calls [Disconnect] exactly when it
    returns (normal completion or the no-data outcome), once and as its
    last call; a run that ends in an exception, raised before or after
    the typed session exists, never calls it. *)
Theorem main_disconnects_iff_returns (w : World) (args : Args) :
  exists t : list event,
    disconnects t = 0%nat /\
    trace (main w args) = match result (main w args) with
                          | Ret _ => t ++ [EDisconnect]
                          | Raise _ => t
                          end /\
    disconnects (trace (main w args)) = match result (main w args) with
                                        | Ret _ => 1%nat
                                        | Raise _ => 0%nat
                                        end.
Proof.
  assert (Hcloses : closes (main w args)).
  { unfold main. apply closes_bind; [apply quiet_main_select | intros sel].
    apply closes_main_query. }
  destruct Hcloses as (t & Hquiet & Htrace).
  exists t. split; [exact Hquiet |]. split; [exact Htrace |].
  rewrite Htrace. destruct (result (main w args)).
  - rewrite disconnects_app, Hquiet. reflexivity.
  - exact Hquiet.
Qed.

(** C7 fails as stated: the server refuses the query after the typed
    session was created and used; the exception leaves [main] and no
    [Disconnect] was called. *)
Lemma main_fault_skips_disconnect :
  In (ERetrieveContent "vmware_soap_session=52c1f0aa") (trace (main faulty_lab lab_args)) /\
  result (main faulty_lab lab_args) = Raise (Fault "QueryPerf") /\
  disconnects (trace (main faulty_lab lab_args)) = 0%nat.
Proof. vm_compute. intuition. Qed.

(** ** Reshaping the result *)

Lemma ratio_series_raises (interval : option Z) (values : list Z) (e : exn) :
  ratio_series interval values = Raise e ->
  e = TypeError \/ e = ZeroDivisionError \/ e = OverflowError.
Proof.
  unfold ratio_series. induction values as [| x values IH]; cbn; [discriminate |].
  destruct interval as [i |]; [| intros [= <-]; now left].
  unfold Py.truediv at 1.
  destruct (i * 10 =? 0); [intros [= <-]; right; now left |].
  destruct (Py.float_overflows x (i * 10)); [intros [= <-]; right; now right |].
  destruct (Py.comprehension _ values); [discriminate |].
  intros [= <-]. now apply IH.
Qed.

(** One turn of the loop: the [ax1.plot] call comes first, with the
    timestamps and the values as they are, and nothing after it is an
    [ax1.plot] call. *)
Lemma plot_series_shape (w : World) (counter : CounterInfo.t) (interval : option Z)
    (timestamps : list Z) (m : PerfMetricSeries.t) :
  exists t' r,
    plot_series w counter interval timestamps m = (plot_call timestamps m :: t', r) /\
    plots t' = [] /\
    (forall e, r = Raise e -> raised_while_plotting w counter e).
Proof.
  unfold plot_series, plot_call, raised_while_plotting. cbv zeta.
  destruct (plot w timestamps (PerfMetricSeries.value m)
              (Py.str_or (PerfMetricSeries.id_instance m) "(aggregate)")) as [[] | e0] eqn:Hplot.
  - rewrite bind_call_ret.
    destruct (String.eqb_spec (CounterInfo.name counter) "cpu.ready") as [Hname | _].
    + destruct (ratio_series interval (PerfMetricSeries.value m)) as [ratios | e1] eqn:Hratio.
      * rewrite bind_lift_ret. do 2 eexists. split; [reflexivity |].
        split; [reflexivity |]. unfold result, call. cbn [snd].
        intros e He. right; left. eauto.
      * do 2 eexists. split; [reflexivity |]. split; [reflexivity |].
        intros e [= <-]. right; right. split; [exact Hname |].
        eapply ratio_series_raises; eauto.
    + do 2 eexists. split; [reflexivity |]. split; [reflexivity |]. discriminate.
  - do 2 eexists. split; [reflexivity |]. split; [reflexivity |].
    intros e [= <-]. left. eauto.
Qed.

Lemma plot_series_returns (w : World) (counter : CounterInfo.t) (interval : option Z)
    (timestamps : list Z) (m : PerfMetricSeries.t) :
  result (plot_series w counter interval timestamps m) = Ret tt ->
  plot w timestamps (PerfMetricSeries.value m)
       (Py.str_or (PerfMetricSeries.id_instance m) "(aggregate)") = Ret tt.
Proof.
  unfold plot_series. cbv zeta.
  destruct (plot w timestamps _ _) as [[] | e]; [reflexivity | discriminate].
Qed.

Lemma for_each_returns {A : Type} (body : A -> M unit) (l : list A) :
  result (for_each body l) = Ret tt -> Forall (fun x => result (body x) = Ret tt) l.
Proof.
  induction l as [| x l IH]; cbn [for_each]; [constructor |].
  destruct (body x) as [t [[] | e]] eqn:Hbody.
  - rewrite (bind_returns _ _ t tt eq_refl). unfold result at 1. cbn [snd].
    intros H. constructor; [now rewrite Hbody | now apply IH].
  - discriminate.
Qed.

(** C1, as the code has it: the loop compares no lengths.  For each
    series, in order, it calls [ax1.plot] with the whole timestamp list
    and the series' value list unchanged (never truncated), whatever
    their lengths; it stops early only on an exception raised by a plot
    call or by the division of line 212, and when it returns every
    series has been plotted.  So a misaligned series is an error exactly
    as far as the plot call makes it one: if [plot] refuses lists of
    different lengths, a loop that returns has seen aligned series only. *)
Theorem plot_loop_passes_series_unchecked (w : World) (counter : CounterInfo.t)
    (interval : option Z) (timestamps : list Z) (series : list PerfMetricSeries.t) :
  exists k : nat,
    plots (trace (for_each (plot_series w counter interval timestamps) series))
    = take k (map (plot_call timestamps) series) /\
    (result (for_each (plot_series w counter interval timestamps) series) = Ret tt ->
     k = length series) /\
    (forall e,
       result (for_each (plot_series w counter interval timestamps) series) = Raise e ->
       raised_while_plotting w counter e) /\
    ((forall x y l, length x <> length y -> exists e, plot w x y l = Raise e) ->
     result (for_each (plot_series w counter interval timestamps) series) = Ret tt ->
     Forall (fun m => length (PerfMetricSeries.value m) = length timestamps) series).
Proof.
  enough (Hloop : exists k : nat,
    plots (trace (for_each (plot_series w counter interval timestamps) series))
    = take k (map (plot_call timestamps) series) /\
    (result (for_each (plot_series w counter interval timestamps) series) = Ret tt ->
     k = length series) /\
    (forall e,
       result (for_each (plot_series w counter interval timestamps) series) = Raise e ->
       raised_while_plotting w counter e)).
  { destruct Hloop as (k & Hplots & Hret & Hraise). exists k.
    repeat (split; [assumption |]).
    intros Hstrict Hreturns. apply for_each_returns in Hreturns.
    eapply Forall_impl; [exact Hreturns |]. cbn. intros m Hm.
    apply plot_series_returns in Hm.
    destruct (Nat.eq_dec (length (PerfMetricSeries.value m)) (length timestamps))
      as [Heq | Hne]; [exact Heq |].
    destruct (Hstrict timestamps (PerfMetricSeries.value m)
                (Py.str_or (PerfMetricSeries.id_instance m) "(aggregate)"))
      as [e He]; [congruence |]. congruence. }
  induction series as [| m series IH]; cbn [for_each].
  - exists 0%nat. repeat split; discriminate.
  - destruct IH as (k & Hplots & Hret & Hraise).
    destruct (plot_series_shape w counter interval timestamps m)
      as (t' & r & Hshape & Hquiet & Hprov).
    destruct r as [[] | e0].
    + rewrite (bind_returns _ _ _ _ Hshape).
      exists (S k). unfold trace, result in *. cbn [fst snd] in *.
      unfold plots in *. cbn [app List.filter is_plot plot_call map take].
      rewrite List.filter_app, Hquiet, Hplots. cbn [app].
      split; [reflexivity | split].
      * intros H. cbn. f_equal. now apply Hret.
      * exact Hraise.
    + rewrite (bind_raises _ _ _ _ Hshape).
      exists 1%nat. unfold trace, result, plots in *. cbn [fst snd] in *.
      cbn [List.filter is_plot plot_call map take]. rewrite Hquiet.
      split; [reflexivity | split].
      * discriminate.
      * intros e [= <-]. now apply Hprov.
Qed.

Lemma plot_loop_passes_series_unchecked_witness :
  (forall x y l, length x <> length y ->
                 exists e, plot (lab jar (Some "net") (Ret [three_by_two])) x y l = Raise e) /\
  result (for_each (plot_series (lab jar (Some "net") (Ret [three_by_two]))
                      (descriptor 143 net_usage) (Some 300)
                      (PerfEntityMetric.sampleInfo three_by_two))
                   (PerfEntityMetric.value three_by_two)) = Ret tt /\
  Forall (fun m => length (PerfMetricSeries.value m)
                   = length (PerfEntityMetric.sampleInfo three_by_two))
         (PerfEntityMetric.value three_by_two).
Proof.
  assert (Hstrict : forall x y l, length x <> length y ->
            exists e, plot (lab jar (Some "net") (Ret [three_by_two])) x y l = Raise e).
  { intros x y l Hne. cbn. unfold matplotlib_plot.
    destruct (Nat.eqb_spec (length x) (length y)); [contradiction | eauto]. }
  split; [exact Hstrict |]. split; [reflexivity |].
  destruct (plot_loop_passes_series_unchecked
              (lab jar (Some "net") (Ret [three_by_two]))
              (descriptor 143 net_usage) (Some 300)
              (PerfEntityMetric.sampleInfo three_by_two)
              (PerfEntityMetric.value three_by_two))
    as (k & _ & _ & _ & Haligned).
  apply Haligned; [exact Hstrict | reflexivity].
Defined.

(** C1 fails as stated: six timestamps against a series of five values.
    [main] hands the series to [ax1.plot] as it is.  With a plotting
    layer that draws what it is given the run completes without an
    exception; with matplotlib's the run ends in the [ValueError] that
    [plot] raises.  The script itself raises nothing. *)
Lemma main_plots_misaligned_series :
  length (PerfEntityMetric.sampleInfo six_against_five) = 6%nat /\
  map (fun m => length (PerfMetricSeries.value m)) (PerfEntityMetric.value six_against_five)
    = [5%nat] /\
  In (EPlot [1; 2; 3; 4; 5; 6] [10; 20; 30; 40; 50] "(aggregate)")
     (trace (main lenient_lab lab_args)) /\
  result (main lenient_lab lab_args) = Ret tt /\
  last (trace (main misaligned_lab lab_args))
    = Some (EPlot [1; 2; 3; 4; 5; 6] [10; 20; 30; 40; 50] "(aggregate)") /\
  plot misaligned_lab [1; 2; 3; 4; 5; 6] [10; 20; 30; 40; 50] "(aggregate)"
    = Raise (Fault "ValueError: x and y must have same first dimension") /\
  result (main misaligned_lab lab_args)
    = Raise (Fault "ValueError: x and y must have same first dimension").
Proof. vm_compute. intuition. Qed.

(** ** The candidate counters *)

Lemma filtered_counters_some (mask : string) (all : list CounterInfo.t) :
  filtered_counters (Some mask) all
  = Ret (List.filter (fun t => String.prefix mask (Py.casefold (CounterInfo.name t))) all).
Proof.
  unfold filtered_counters. induction all as [| t all IH]; cbn; [reflexivity |].
  cbn in IH. rewrite IH. reflexivity.
Qed.

Lemma filtered_counters_none (t : CounterInfo.t) (all : list CounterInfo.t) :
  filtered_counters None (t :: all) = Raise TypeError.
Proof. reflexivity. Qed.

(** C4 on the code: an empty answer at the filter prompt becomes [None]
    and [startswith(None)] raises [TypeError] on the first candidate, so
    the run ends there; and a filter typed in upper case matches no
    counter, since only the counter name is case-folded. *)
Theorem empty_filter_raises_TypeError :
  Py.or_None (Some "") = None /\
  filtered_counters (Py.or_None (Some "")) [descriptor 143 net_usage] = Raise TypeError /\
  filtered_counters (Py.or_None None) [descriptor 143 net_usage] = Raise TypeError /\
  result (main empty_mask_lab lab_args) = Raise TypeError /\
  filtered_counters (Py.or_None (Some "net")) [descriptor 12 cpu_ready; descriptor 143 net_usage]
    = Ret [descriptor 143 net_usage] /\
  filtered_counters (Py.or_None (Some "NET")) [descriptor 12 cpu_ready; descriptor 143 net_usage]
    = Ret [].
Proof. repeat split; vm_compute; reflexivity. Qed.



(** * Further properties *)

(** ** Durations of any sign and assembled durations *)

(** X1: for every integer, negative ones included, the rendering is that
    of the floor decomposition: hours, minutes and seconds lie in their
    ranges and only the day count takes the sign of the input. *)
Theorem seconds_to_readable_any_integer (n : Z) :
  exists d h m s : Z,
    n = d * 86400 + h * 3600 + m * 60 + s /\
    0 <= h < 24 /\ 0 <= m < 60 /\ 0 <= s < 60 /\
    (d < 0 <-> n < 0) /\
    seconds_to_readable n = render_duration d h m s.
Proof.
  exists (n / 60 / 60 / 24), ((n / 60 / 60) mod 24), ((n / 60) mod 60), (n mod 60).
  repeat split; try apply seconds_to_readable_render;
    Z.div_mod_to_equations; lia.
Qed.

(** X2: the rendering is never the empty string. *)
Theorem seconds_to_readable_not_empty (n : Z) :
  exists (c : ascii) (rest : string), seconds_to_readable n = String c rest.
Proof.
  unfold seconds_to_readable.
  destruct (Py.divmod n 60) as [minutes sec].
  destruct (Py.divmod minutes 60) as [hours minutes'].
  destruct (Py.divmod hours 24) as [days hours'].
  cbv zeta. unfold Py.str_or.
  destruct (Py.join " " _) as [| c rest]; eauto.
Qed.

(** X3: a duration assembled from a day count and in-range hours,
    minutes and seconds renders as exactly those four components. *)
Theorem seconds_to_readable_of_components (d h m s : Z) :
  0 <= h < 24 -> 0 <= m < 60 -> 0 <= s < 60 ->
  seconds_to_readable (d * 86400 + h * 3600 + m * 60 + s) = render_duration d h m s.
Proof.
  intros Hh Hm Hs. rewrite seconds_to_readable_render.
  set (n := d * 86400 + h * 3600 + m * 60 + s).
  assert (n / 60 / 60 / 24 = d /\ (n / 60 / 60) mod 24 = h /\
          (n / 60) mod 60 = m /\ n mod 60 = s) as (-> & -> & -> & ->).
  { subst n. Z.div_mod_to_equations. lia. }
  reflexivity.
Qed.

Lemma seconds_to_readable_of_components_witness :
  (0 <= 0 < 24 /\ 0 <= 30 < 60 /\ 0 <= 0 < 60) /\
  seconds_to_readable (7 * 86400 + 0 * 3600 + 30 * 60 + 0) = "7d 30m".
Proof.
  split; [lia |].
  rewrite (seconds_to_readable_of_components 7 0 30 0); [reflexivity | lia | lia | lia].
Defined.

(** ** The counter table and the entity-scoped counters *)

Lemma counter_table_from (perfCounter : list PerfCounterInfo.t)
    (tbl : gmap Z PerfCounterInfo.t) (k : Z) :
  fold_left (fun tbl c => <[PerfCounterInfo.key c := c]> tbl) perfCounter tbl !! k
  = match last (entries_for k perfCounter) with
    | Some c => Some c
    | None => tbl !! k
    end.
Proof.
  revert tbl. induction perfCounter as [| c l IH]; intros tbl; [reflexivity |].
  cbn [fold_left]. rewrite IH. unfold entries_for. cbn [List.filter].
  destruct (Z.eqb_spec (PerfCounterInfo.key c) k) as [Hk | Hk].
  - rewrite last_cons. destruct (last (List.filter _ l)); [reflexivity |].
    rewrite <- Hk. apply lookup_insert_eq.
  - destruct (last (List.filter _ l)); [reflexivity |].
    now apply lookup_insert_ne.
Qed.

Lemma counter_table_lookup (perfCounter : list PerfCounterInfo.t) (k : Z) :
  counter_table perfCounter !! k = last (entries_for k perfCounter).
Proof.
  unfold counter_table. rewrite counter_table_from, lookup_empty.
  now destruct (last _).
Qed.

Lemma entries_for_key (k : Z) (perfCounter : list PerfCounterInfo.t) (c : PerfCounterInfo.t) :
  last (entries_for k perfCounter) = Some c ->
  PerfCounterInfo.key c = k /\ In c perfCounter.
Proof.
  intros Hlast. apply last_Some in Hlast as [l' Hl'].
  assert (Hin : In c (entries_for k perfCounter))
    by (rewrite Hl'; apply in_or_app; right; now left).
  apply List.filter_In in Hin as [Hin Hk]. split; [lia | exact Hin].
Qed.

Lemma entries_for_none (k : Z) (perfCounter : list PerfCounterInfo.t) :
  last (entries_for k perfCounter) = None <->
  existsb (fun c => PerfCounterInfo.key c =? k) perfCounter = false.
Proof.
  rewrite last_None. unfold entries_for.
  induction perfCounter as [| c l IH]; cbn; [tauto |].
  destruct (PerfCounterInfo.key c =? k); cbn; [split; discriminate | exact IH].
Qed.

(** X4: a lookup in the table built at line 82 finds the last entry of
    [perf_mgr.perfCounter] that carries the key; what it finds carries
    the key and is an entry of the list; and it finds nothing exactly
    when no entry carries the key. *)
Theorem counter_table_last_wins (perfCounter : list PerfCounterInfo.t) (k : Z) :
  counter_table perfCounter !! k = last (entries_for k perfCounter) /\
  (forall c, counter_table perfCounter !! k = Some c ->
             PerfCounterInfo.key c = k /\ In c perfCounter) /\
  (counter_table perfCounter !! k = None <->
   existsb (fun c => PerfCounterInfo.key c =? k) perfCounter = false).
Proof.
  rewrite counter_table_lookup.
  split; [reflexivity |]. split; [apply entries_for_key | apply entries_for_none].
Qed.

Lemma get_counters_loop (pc : list PerfCounterInfo.t) (available : list PerfMetricId.t)
    (acc : list CounterInfo.t) :
  fold_left
    (fun counters m =>
       match counter_table pc !! PerfMetricId.counterId m with
       | Some c => counters ++ [descriptor (PerfMetricId.counterId m) c]
       | None => counters
       end) available acc
  = acc ++ omap (fun m => descriptor (PerfMetricId.counterId m)
                            <$> last (entries_for (PerfMetricId.counterId m) pc))
                available.
Proof.
  revert acc. induction available as [| m l IH]; intros acc; cbn [fold_left omap].
  - cbn. now rewrite app_nil_r.
  - rewrite IH, counter_table_lookup.
    destruct (last (entries_for (PerfMetricId.counterId m) pc)) eqn:Hlast;
      cbn; rewrite ?Hlast; cbn; [now rewrite <- app_assoc | reflexivity].
Qed.

(** X5: [get_counters] makes the one call [QueryAvailablePerfMetric]
    and passes its exception on.  When the call answers, the result
    holds, in the server's order, one descriptor per reported metric id
    whose counter id is a key of the counter table, duplicates kept:
    ids without metadata are dropped, nothing else is, and every
    descriptor carries the reported id and the metadata of the last
    table entry with that key. *)
Theorem get_counters_join (w : World) (perf_mgr : PerformanceManager.t)
    (host : option ManagedEntity.t) (interval_id : option Z) :
  trace (get_counters w perf_mgr host interval_id)
    = [EQueryAvailablePerfMetric host interval_id] /\
  (forall e, QueryAvailablePerfMetric w host interval_id = Raise e ->
             result (get_counters w perf_mgr host interval_id) = Raise e) /\
  (forall available, QueryAvailablePerfMetric w host interval_id = Ret available ->
     exists counters,
       result (get_counters w perf_mgr host interval_id) = Ret counters /\
       map CounterInfo.id counters
         = List.filter
             (fun i => existsb (fun c => PerfCounterInfo.key c =? i)
                               (PerformanceManager.perfCounter perf_mgr))
             (map PerfMetricId.counterId available) /\
       (length counters <= length available)%nat /\
       Forall (fun d =>
                 exists c, last (entries_for (CounterInfo.id d)
                                             (PerformanceManager.perfCounter perf_mgr)) = Some c /\
                           d = descriptor (CounterInfo.id d) c)
              counters).
Proof.
  unfold get_counters.
  destruct (QueryAvailablePerfMetric w host interval_id) as [available | e0].
  - rewrite bind_call_ret. cbv zeta. unfold trace, result, ret. cbn [fst snd].
    split; [reflexivity |]. split; [discriminate |].
    intros ? [= <-].
    set (pc := PerformanceManager.perfCounter perf_mgr).
    rewrite get_counters_loop, app_nil_l.
    eexists. split; [reflexivity |].
    induction available as [| m l (Hids & Hlen & Hall)]; cbn.
    + repeat split; constructor.
    + destruct (last (entries_for (PerfMetricId.counterId m) pc)) as [c |] eqn:Hlast; cbn.
      * assert (Hex : existsb (fun c => PerfCounterInfo.key c =? PerfMetricId.counterId m) pc = true).
        { destruct (existsb _ pc) eqn:Hex; [reflexivity |].
          apply entries_for_none in Hex. congruence. }
        rewrite Hex. cbn. split; [now f_equal |]. split; [lia |].
        constructor; [| exact Hall]. cbn. eauto.
      * apply entries_for_none in Hlast. rewrite Hlast.
        split; [exact Hids |]. split; [lia | exact Hall].
  - split; [reflexivity |]. split; [| discriminate]. intros ? [= <-]. reflexivity.
Qed.

(** ** The filter *)

Lemma casefold_ascii_not_upper (c : ascii) : is_upper (Py.casefold_ascii c) = false.
Proof. destruct c as [[] [] [] [] [] [] [] []]; reflexivity. Qed.

Lemma casefold_no_upper (s : string) : has_upper (Py.casefold s) = false.
Proof.
  induction s as [| c s IH]; cbn; [reflexivity |].
  now rewrite casefold_ascii_not_upper, IH.
Qed.

Lemma prefix_has_upper (p s : string) :
  String.prefix p s = true -> has_upper p = true -> has_upper s = true.
Proof.
  revert p. induction s as [| b s IH]; intros [| a p]; cbn; try discriminate.
  destruct (ascii_dec a b) as [-> | _]; [| discriminate].
  intros Hprefix Hupper. destruct (is_upper b); [reflexivity |].
  cbn in *. eauto.
Qed.

(** X6: a filter that holds an upper-case ASCII letter keeps no counter
    at all, whatever the candidates are: only the counter name is
    case-folded at line 160. *)
Theorem upper_case_filter_keeps_nothing (mask : string) (all : list CounterInfo.t) :
  has_upper mask = true ->
  filtered_counters (Some mask) all = Ret [].
Proof.
  intros Hupper. rewrite filtered_counters_some. f_equal.
  induction all as [| t all IH]; cbn; [reflexivity |].
  destruct (String.prefix mask (Py.casefold (CounterInfo.name t))) eqn:Hprefix; [| exact IH].
  pose proof (prefix_has_upper _ _ Hprefix Hupper) as Habs.
  rewrite casefold_no_upper in Habs. discriminate.
Qed.

Lemma upper_case_filter_keeps_nothing_witness :
  has_upper "Net" = true /\
  String.prefix "net" (Py.casefold (CounterInfo.name (descriptor 143 net_usage))) = true /\
  filtered_counters (Some "Net") [descriptor 12 cpu_ready; descriptor 143 net_usage] = Ret [].
Proof.
  split; [reflexivity |]. split; [reflexivity |].
  apply (upper_case_filter_keeps_nothing "Net"). reflexivity.
Defined.

Lemma filter_sublist {A : Type} (f : A -> bool) (l : list A) : sublist (List.filter f l) l.
Proof.
  induction l as [| x l IH]; cbn; [constructor |].
  destruct (f x); now constructor.
Qed.

(** X7: for candidates whose names are ASCII text and a filter given,
    the comprehension of line 160 never raises; it keeps the candidates
    in their order, adds none, and keeps a candidate exactly when its
    case-folded name starts with the filter as typed.  Over the merged
    list it yields the matches of the entity-scoped list followed by the
    matches of the guest list. *)
Theorem filtered_counters_with_mask (mask : string)
    (entity_counters guest_metrics : list CounterInfo.t) :
  Forall (fun t => Py.isascii (CounterInfo.name t) = true)
         (all_counters entity_counters guest_metrics) ->
  exists kept_entity kept_guest : list CounterInfo.t,
    filtered_counters (Some mask) entity_counters = Ret kept_entity /\
    filtered_counters (Some mask) guest_metrics = Ret kept_guest /\
    filtered_counters (Some mask) (all_counters entity_counters guest_metrics)
      = Ret (kept_entity ++ kept_guest) /\
    sublist (kept_entity ++ kept_guest) (all_counters entity_counters guest_metrics) /\
    (forall t, In t (kept_entity ++ kept_guest) <->
               In t (all_counters entity_counters guest_metrics) /\
               String.prefix mask (Py.casefold (CounterInfo.name t)) = true).
Proof.
  intros _.
  do 2 eexists. rewrite !filtered_counters_some. unfold all_counters.
  split; [reflexivity |]. split; [reflexivity |].
  rewrite List.filter_app. split; [reflexivity |].
  rewrite <- List.filter_app. split; [apply filter_sublist |].
  intros t. apply List.filter_In.
Qed.

Lemma filtered_counters_with_mask_witness :
  Forall (fun t => Py.isascii (CounterInfo.name t) = true)
         (all_counters [descriptor 143 net_usage]
                       [descriptor 12 cpu_ready; descriptor 143 net_usage]) /\
  filtered_counters (Some "net")
    (all_counters [descriptor 143 net_usage]
                  [descriptor 12 cpu_ready; descriptor 143 net_usage])
  = Ret [descriptor 143 net_usage; descriptor 143 net_usage].
Proof.
  assert (Hascii : Forall (fun t => Py.isascii (CounterInfo.name t) = true)
                     (all_counters [descriptor 143 net_usage]
                                   [descriptor 12 cpu_ready; descriptor 143 net_usage])).
  { repeat constructor. }
  split; [exact Hascii |].
  destruct (filtered_counters_with_mask "net" _ _ Hascii)
    as (kept_entity & kept_guest & He & Hg & Hall & _).
  rewrite Hall. vm_compute in He, Hg. injection He as <-. injection Hg as <-. reflexivity.
Defined.

(** X8: a filter prompt left empty or cancelled gives the mask [None],
    and any other answer is the mask itself; with the mask [None] the
    comprehension of line 160 returns the empty list for an empty
    candidate list and raises [TypeError] for every other one. *)
Theorem absent_filter_raises_unless_no_candidate
    (answer : option string) (all : list CounterInfo.t) :
  (Py.or_None answer = None <-> answer = None \/ answer = Some "") /\
  (forall mask, Py.or_None answer = Some mask -> answer = Some mask) /\
  filtered_counters None all = match all with
                               | [] => Ret []
                               | _ :: _ => Raise TypeError
                               end.
Proof.
  split; [| split].
  - destruct answer as [[| c rest] |]; cbn; split; intros H; try tauto; try discriminate.
    destruct H as [H | H]; discriminate.
  - intros mask. destruct answer as [[| c rest] |]; cbn; congruence.
  - now destruct all.
Qed.

(** ** The window and the ratio, edge by edge *)

(** X9: the window computation raises only [OverflowError], and does so
    exactly when the interval is not 20 and the clock is less than 365
    days past [datetime.min].  A cancelled interval prompt ([None]) is
    treated as a historical interval and gets the bounded window. *)
Theorem query_window_edges (interval : option Z) (now : Z) :
  (query_window interval now = Raise OverflowError <->
   interval <> Some 20 /\ now < Py.timedelta_days 365) /\
  (forall e, query_window interval now = Raise e -> e = OverflowError) /\
  (Py.timedelta_days 365 <= now ->
   query_window None now = Ret (Some (now - Py.timedelta_days 365), Some now)) /\
  query_window (Some 20) now = Ret (None, None).
Proof.
  assert (Hguard : interval_ne_20 interval = true <-> interval <> Some 20).
  { unfold interval_ne_20. destruct interval as [i |]; [| split; congruence].
    destruct (Z.eqb_spec i 20) as [-> | Hne]; cbn; split; congruence. }
  unfold query_window, Py.datetime_sub.
  split; [| split; [| split]].
  - destruct (interval_ne_20 interval).
    + assert (Hne : interval <> Some 20) by (now apply Hguard).
      destruct (Z.ltb_spec (now - Py.timedelta_days 365) 0); split;
        try discriminate; try tauto; try lia.
      intros _. split; [exact Hne | lia].
    + split; [discriminate |]. intros [Hne' _]. apply Hguard in Hne'. discriminate.
  - intros e. destruct (interval_ne_20 interval); [| discriminate].
    destruct (now - Py.timedelta_days 365 <? 0); [congruence | discriminate].
  - intros Hnow. cbn.
    destruct (Z.ltb_spec (now - Py.timedelta_days 365) 0); [lia | reflexivity].
  - reflexivity.
Qed.

Lemma ratio_loop (d : Z) (values : list Z) :
  d <> 0 ->
  Py.comprehension (fun x => Py.truediv x d) values
  = if existsb (fun x => Py.float_overflows x d) values
    then Raise OverflowError
    else Ret (map (fun x => (x, d)) values).
Proof.
  intros Hd. induction values as [| x values IH]; cbn; [reflexivity |].
  unfold Py.truediv at 1. destruct (Z.eqb_spec d 0); [contradiction |].
  destruct (Py.float_overflows x d); cbn; [reflexivity |].
  rewrite IH. now destruct (existsb _ values).
Qed.

(** X10: the conversion of line 212 returns the empty list when there
    is no sample.  With a sample it raises [TypeError] exactly when the
    interval prompt was cancelled, [ZeroDivisionError] exactly when the
    interval is 0, and [OverflowError] exactly when the interval is not
    0 and some quotient is beyond the float range; in every other case
    it returns one quotient per sample, in order, the sample over ten
    times the interval.  A sample below [2^1024 - 2^970] in magnitude
    never overflows. *)
Theorem ratio_series_edges (interval : option Z) (values : list Z) :
  ratio_series interval [] = Ret [] /\
  (ratio_series interval values = Raise TypeError <->
   values <> [] /\ interval = None) /\
  (ratio_series interval values = Raise ZeroDivisionError <->
   values <> [] /\ interval = Some 0) /\
  (ratio_series interval values = Raise OverflowError <->
   exists i, interval = Some i /\ i <> 0 /\
             existsb (fun x => Py.float_overflows x (i * 10)) values = true) /\
  (forall i, interval = Some i -> i <> 0 ->
             existsb (fun x => Py.float_overflows x (i * 10)) values = false ->
             ratio_series interval values = Ret (map (fun x => (x, i * 10)) values)) /\
  (forall x d, d <> 0 -> Z.abs x < 2 ^ 1024 - 2 ^ 970 -> Py.float_overflows x d = false).
Proof.
  split; [reflexivity |].
  assert (Hbound : forall x d, d <> 0 -> Z.abs x < 2 ^ 1024 - 2 ^ 970 ->
                               Py.float_overflows x d = false).
  { intros x d Hd Hx. unfold Py.float_overflows. apply Z.leb_gt.
    assert (0 < 2 ^ 1024 - 2 ^ 970) by (pose proof (Z.abs_nonneg x); lia).
    nia. }
  unfold ratio_series.
  destruct interval as [i |].
  - destruct (Z.eq_dec i 0) as [-> | Hi].
    + destruct values as [| x values]; cbn.
      * split; [split; [discriminate | intros [H _]; congruence] |].
        split; [split; [discriminate | intros [H _]; congruence] |].
        split; [split; [discriminate | intros (i & [= <-] & Hi & _); congruence] |].
        split; [reflexivity | exact Hbound].
      * split; [split; [discriminate | intros [_ H]; congruence] |].
        split; [split; [intros _; split; [discriminate | reflexivity] | reflexivity] |].
        split; [split; [discriminate | intros (i & [= <-] & Hi & _); congruence] |].
        split; [intros i [= <-] Hi; congruence | exact Hbound].
    + rewrite ratio_loop by lia.
      destruct (existsb (fun x => Py.float_overflows x (i * 10)) values) eqn:Hex.
      * split; [split; [discriminate | intros [_ H]; congruence] |].
        split; [split; [discriminate | intros [_ [= ->]]; congruence] |].
        split; [split; [intros _; exists i; auto | reflexivity] |].
        split; [intros j [= <-] _ Hnone; congruence | exact Hbound].
      * split; [split; [discriminate | intros [_ H]; congruence] |].
        split; [split; [discriminate | intros [_ [= ->]]; congruence] |].
        split; [split; [discriminate | intros (j & [= <-] & _ & Hj); congruence] |].
        split; [intros j [= <-] _ _; reflexivity | exact Hbound].
  - destruct values as [| x values]; cbn.
    + split; [split; [discriminate | intros [H _]; congruence] |].
      split; [split; [discriminate | intros [H _]; congruence] |].
      split; [split; [discriminate | intros (i & Hi & _); discriminate] |].
      split; [intros i Hi; discriminate | exact Hbound].
    + split; [split; [intros _; split; [discriminate | reflexivity] | reflexivity] |].
      split; [split; [discriminate | intros [_ H]; congruence] |].
      split; [split; [discriminate | intros (i & Hi & _); discriminate] |].
      split; [intros i Hi; discriminate | exact Hbound].
Qed.

Lemma ratio_series_edges_witness :
  existsb (fun x => Py.float_overflows x (20 * 10)) [400; 1000; 0] = false /\
  ratio_series (Some 20) [400; 1000; 0] = Ret [(400, 200); (1000, 200); (0, 200)] /\
  existsb (fun x => Py.float_overflows x (300 * 10)) [7; 10 ^ 400] = true /\
  ratio_series (Some 300) [7; 10 ^ 400] = Raise OverflowError.
Proof.
  assert (Hfits : existsb (fun x => Py.float_overflows x (20 * 10)) [400; 1000; 0] = false)
    by (vm_compute; reflexivity).
  assert (Hbig : existsb (fun x => Py.float_overflows x (300 * 10)) [7; 10 ^ 400] = true)
    by (vm_compute; reflexivity).
  destruct (ratio_series_edges (Some 20) [400; 1000; 0]) as (_ & _ & _ & _ & Hret & _).
  destruct (ratio_series_edges (Some 300) [7; 10 ^ 400]) as (_ & _ & _ & Hover & _).
  split; [exact Hfits |].
  split; [now rewrite (Hret 20 eq_refl) by (lia || exact Hfits) |].
  split; [exact Hbig |].
  apply Hover. exists 300. split; [reflexivity |]. split; [lia | exact Hbig].
Defined.

(** ** Calls of one kind *)

Section Calls.

Variable p : event -> bool.

Lemma calls_bind {A B : Type} (m : M A) (k : A -> M B) :
  calls p (bind m k)
  = calls p m ++ match result m with
                 | Ret a => calls p (k a)
                 | Raise _ => []
                 end.
Proof.
  destruct m as [t [a | e]]; unfold calls.
  - rewrite (bind_returns _ k t a eq_refl). unfold trace, result. cbn [fst snd].
    apply List.filter_app.
  - cbn. now rewrite app_nil_r.
Qed.

Lemma calls_bind_none {A B : Type} (m : M A) (k : A -> M B) :
  (forall a, calls p (k a) = []) -> calls p (bind m k) = calls p m.
Proof.
  intros Hk. rewrite calls_bind. destruct (result m); [rewrite Hk |]; apply app_nil_r.
Qed.

Lemma calls_none_bind {A B : Type} (m : M A) (k : A -> M B) :
  calls p m = [] -> (forall a, calls p (k a) = []) -> calls p (bind m k) = [].
Proof. intros Hm Hk. now rewrite calls_bind_none. Qed.

Lemma calls_call_other {A : Type} (ev : event) (answer : outcome A) :
  p ev = false -> calls p (call ev answer) = [].
Proof. intros H. unfold calls, call, trace. cbn. now rewrite H. Qed.

Lemma calls_call_this {A : Type} (ev : event) (answer : outcome A) :
  p ev = true -> calls p (call ev answer) = [ev].
Proof. intros H. unfold calls, call, trace. cbn. now rewrite H. Qed.

Lemma calls_emit_other (ev : event) : p ev = false -> calls p (emit ev) = [].
Proof. apply (calls_call_other (A := unit)). Qed.

Lemma calls_attr {A B : Type} (x : option A) (f : A -> B) : calls p (attr x f) = [].
Proof. now destruct x. Qed.

Lemma calls_for_each_none {A : Type} (body : A -> M unit) (l : list A) :
  (forall x, calls p (body x) = []) -> calls p (for_each body l) = [].
Proof.
  intros Hbody. induction l as [| x l IH]; cbn [for_each]; [reflexivity |].
  apply calls_none_bind; auto.
Qed.

End Calls.

Ltac no_calls :=
  repeat match goal with
    | |- calls _ (bind _ _) = [] => apply calls_none_bind; [| intros ?]
    | |- calls _ (call _ _) = [] => apply calls_call_other; reflexivity
    | |- calls _ (emit _) = [] => apply calls_emit_other; reflexivity
    | |- calls _ (attr _ _) = [] => apply calls_attr
    | |- calls _ (for_each _ _) = [] => apply calls_for_each_none; intros ?
    | |- calls _ (ret _) = [] => reflexivity
    | |- calls _ (lift _) = [] => reflexivity
    | |- calls _ (let '(_, _) := ?x in _) = [] => destruct x
    | |- calls _ (if ?b then _ else _) = [] => destruct b
    | |- calls _ (match ?x with [] => _ | _ :: _ => _ end) = [] => destruct x
    end.

(** X11: every run of [main] submits the credentials exactly once, as
    its first call, whatever happens afterwards: the typed session is
    never logged in. *)
Theorem main_logs_in_once (w : World) (args : Args) :
  calls is_login (main w args) = [ELogin (host args) (user args) (password args)] /\
  head (trace (main w args)) = Some (ELogin (host args) (user args) (password args)).
Proof.
  assert (Hguest : forall addr u pw,
             calls is_login (enable_guest w addr u pw) = [ELogin addr u pw] /\
             head (trace (enable_guest w addr u pw)) = Some (ELogin addr u pw)).
  { intros addr u pw. unfold enable_guest. split; [| apply head_bind_call].
    rewrite calls_bind_none; [now apply calls_call_this |].
    intros _. no_calls. }
  assert (Hselect : calls is_login (main_select w args)
                    = [ELogin (host args) (user args) (password args)] /\
                    head (trace (main_select w args))
                    = Some (ELogin (host args) (user args) (password args))).
  { unfold main_select. destruct (Hguest (host args) (user args) (password args)) as [Hc Hh].
    split.
    - rewrite calls_bind_none; [exact Hc |].
      intros r. unfold get_entities, get_counters. no_calls.
    - destruct (enable_guest w (host args) (user args) (password args)) as [t [r | e]] eqn:Hg.
      + rewrite (bind_returns _ _ t r eq_refl). unfold trace in *. cbn [fst] in *.
        destruct t; [discriminate | exact Hh].
      + exact Hh. }
  destruct Hselect as [Hc Hh]. unfold main. split.
  - rewrite calls_bind_none; [exact Hc |].
    intros sel. unfold main_query, build_graph, plot_series. no_calls.
  - destruct (main_select w args) as [t [sel | e]] eqn:Hs.
    + rewrite (bind_returns _ _ t sel eq_refl). unfold trace in *. cbn [fst] in *.
      destruct t; [discriminate | exact Hh].
    + exact Hh.
Qed.

(** ** The hand-off of the session *)

Lemma enable_guest_token (w : World) (addr user password : string)
    (token : option string) (descriptors : list CounterInfo.t) :
  result (enable_guest w addr user password) = Ret (token, descriptors) ->
  cookies_get (cookies w) "vmware_soap_session" = Ret token.
Proof.
  unfold enable_guest, bind, call, emit, ret, lift, result.
  destruct (Login w user password) as [[] | e1]; cbn; [| discriminate].
  destruct (RetrieveServiceContent w) as [ref | e2]; cbn; [| discriminate].
  destruct (QueryPerfCounterInt w ref) as [counters | e3]; cbn; [| discriminate].
  destruct (level_mappings counters) as [mappings descs]. cbn.
  destruct (UpdateCounterLevelMapping w ref mappings); cbn; [| discriminate].
  destruct (cookies_get (cookies w) "vmware_soap_session"); cbn; [| discriminate].
  intros [= <- _]. reflexivity.
Qed.

(** X12: the typed session's [RetrieveContent] is called at most once,
    exactly when [enable_guest] and the type prompt have returned, and
    always with the cookie header built from the jar's lookup: the
    token after [vmware_soap_session=], or the text [None] when the
    lookup gave the absent token. *)
Theorem main_hands_over_the_cookie (w : World) (args : Args) :
  calls is_retrieve_content (main w args)
  = match result (enable_guest w (host args) (user args) (password args)), pick_type w with
    | Ret _, Ret _ => [ERetrieveContent (stub_cookie w)]
    | _, _ => []
    end /\
  (cookies_get (cookies w) "vmware_soap_session" = Ret None ->
   stub_cookie w = "vmware_soap_session=None").
Proof.
  split; [| unfold stub_cookie; now intros ->].
  unfold main. rewrite calls_bind_none;
    [| intros sel; unfold main_query, build_graph, plot_series; no_calls].
  unfold main_select. rewrite calls_bind.
  assert (Hguest : calls is_retrieve_content
                     (enable_guest w (host args) (user args) (password args)) = []).
  { unfold enable_guest. no_calls. }
  rewrite Hguest, app_nil_l.
  destruct (result (enable_guest w (host args) (user args) (password args)))
    as [[token guest_metrics] | e] eqn:Hres; [| reflexivity].
  apply enable_guest_token in Hres. cbv zeta.
  replace ("vmware_soap_session=" +:+ Py.fmt_opt token) with (stub_cookie w)
    by (unfold stub_cookie; now rewrite Hres).
  rewrite calls_bind, calls_call_other by reflexivity. cbn [app].
  unfold result at 1, call at 1. cbn [snd].
  destruct (pick_type w) as [type |]; [| reflexivity].
  rewrite calls_bind_none; [now apply calls_call_this |].
  intros content. unfold get_entities, get_counters. no_calls.
Qed.

(** X13: a run sends at most one performance query, and the query it
    sends holds one specification with one metric id whose instance is
    the wildcard. *)
Theorem main_queries_once (w : World) (args : Args) :
  calls is_query (main w args) = [] \/
  exists (spec : QuerySpec.t) (counter_id : Z),
    calls is_query (main w args) = [EQueryPerf [spec]] /\
    QuerySpec.metricId spec = [PerfMetricId.Build counter_id "*"].
Proof.
  unfold main. rewrite calls_bind.
  assert (Hselect : calls is_query (main_select w args) = []).
  { unfold main_select, enable_guest, get_entities, get_counters. no_calls. }
  rewrite Hselect, app_nil_l.
  destruct (result (main_select w args)) as [sel | e]; [| now left].
  unfold main_query.
  destruct (query_window (sel_interval sel) (utcnow w)) as [window | e]; [| now left].
  rewrite bind_lift_ret.
  destruct (sel_counter sel) as [counter |]; [| now left].
  unfold attr. rewrite bind_ret. cbv zeta.
  right. exists (query_spec sel window counter), (CounterInfo.id counter).
  split; [| now destruct window].
  rewrite calls_bind_none; [now apply calls_call_this |].
  intros perf_data. unfold build_graph, plot_series. no_calls.
Qed.

(** X14: when the counter prompt was cancelled, the query phase sends
    nothing, neither a query nor a disconnect, and ends in the
    [AttributeError] of line 175, or in the [OverflowError] of the window
    computation that precedes it. *)
Theorem main_query_cancelled_counter (w : World) (sel : Selection) :
  sel_counter sel = None ->
  trace (main_query w sel) = [] /\
  (result (main_query w sel) = Raise AttributeError \/
   result (main_query w sel) = Raise OverflowError).
Proof.
  intros Hnone. unfold main_query. rewrite Hnone.
  destruct (query_window (sel_interval sel) (utcnow w)) as [window | e] eqn:Hwindow.
  - rewrite bind_lift_ret. split; [reflexivity | now left].
  - split; [reflexivity |]. right. cbn.
    f_equal. unfold query_window, Py.datetime_sub in Hwindow.
    destruct (interval_ne_20 (sel_interval sel)); [| discriminate].
    destruct (utcnow w - Py.timedelta_days 365 <? 0); congruence.
Qed.

Lemma main_query_cancelled_counter_witness :
  sel_counter {| sel_mo := Some web01; sel_interval := Some 300; sel_counter := None |} = None /\
  main_query no_data_lab {| sel_mo := Some web01; sel_interval := Some 300; sel_counter := None |}
  = ([], Raise AttributeError).
Proof.
  split; [reflexivity |].
  destruct (main_query_cancelled_counter no_data_lab
              {| sel_mo := Some web01; sel_interval := Some 300; sel_counter := None |}
              eq_refl) as [Htrace [Hresult | Hresult]].
  - rewrite (surjective_pairing (main_query _ _)).
    unfold trace, result in *. now rewrite Htrace, Hresult.
  - vm_compute in Hresult. discriminate.
Defined.

(** X15: when the query answers with records, only the first one is
    charted: the run is the query followed by the chart of that record
    and the disconnect, whatever the other records are. *)
Theorem main_query_charts_first_record (w : World) (sel : Selection)
    (window : option Z * option Z) (counter : CounterInfo.t)
    (rec : PerfEntityMetric.t) (others : list PerfEntityMetric.t) :
  query_window (sel_interval sel) (utcnow w) = Ret window ->
  sel_counter sel = Some counter ->
  QueryPerf w [query_spec sel window counter] = Ret (rec :: others) ->
  main_query w sel
  = (EQueryPerf [query_spec sel window counter]
       :: trace (build_graph w sel counter rec ;;; emit EDisconnect),
     result (build_graph w sel counter rec ;;; emit EDisconnect)).
Proof.
  intros Hwindow Hcounter Hperf. unfold main_query.
  rewrite Hwindow, bind_lift_ret, Hcounter. unfold attr. rewrite bind_ret.
  cbv zeta. rewrite Hperf, bind_call_ret. reflexivity.
Qed.

Lemma main_query_charts_first_record_witness :
  query_window (sel_interval lab_selection) (utcnow misaligned_lab)
    = Ret (Some 63868464000000000, Some 63900000000000000) /\
  result (main_query (lab jar (Some "net") (Ret [three_by_two; six_against_five]))
            lab_selection) = Ret tt /\
  calls is_plot (main_query (lab jar (Some "net") (Ret [three_by_two; six_against_five]))
                   lab_selection)
  = [EPlot [1; 2; 3] [10; 20; 30] "(aggregate)"; EPlot [1; 2; 3] [7; 8; 9] "vmnic0"].
Proof.
  split; [vm_compute; reflexivity |].
  rewrite (main_query_charts_first_record
             (lab jar (Some "net") (Ret [three_by_two; six_against_five])) lab_selection
             (Some 63868464000000000, Some 63900000000000000)
             (descriptor 143 net_usage) three_by_two [six_against_five]);
    [| vm_compute; reflexivity | reflexivity | reflexivity].
  split; vm_compute; reflexivity.
Defined.

(** ** The second axis *)

Lemma length_calls_bind_le {A B : Type} (p : event -> bool) (m : M A) (k : A -> M B)
    (n1 n2 : nat) :
  (length (calls p m) <= n1)%nat ->
  (forall a, (length (calls p (k a)) <= n2)%nat) ->
  (length (calls p (bind m k)) <= n1 + n2)%nat.
Proof.
  intros Hm Hk. rewrite calls_bind, length_app.
  destruct (result m) as [a | e]; [specialize (Hk a) | cbn]; lia.
Qed.

Lemma plot_series_ratio_calls (w : World) (counter : CounterInfo.t) (interval : option Z)
    (timestamps : list Z) (m : PerfMetricSeries.t) :
  (length (calls is_plot_ratio (plot_series w counter interval timestamps m))
   <= if String.eqb (CounterInfo.name counter) "cpu.ready" then 1 else 0)%nat.
Proof.
  unfold plot_series. cbv zeta.
  rewrite calls_bind, calls_call_other, app_nil_l by reflexivity.
  destruct (result _); [| cbn; lia].
  destruct (String.eqb (CounterInfo.name counter) "cpu.ready"); [| cbn; lia].
  rewrite calls_bind. cbn [calls lift trace fst List.filter app].
  destruct (result (lift _)); [| cbn; lia].
  unfold calls, call, trace. cbn. lia.
Qed.

Lemma for_each_ratio_calls (w : World) (counter : CounterInfo.t) (interval : option Z)
    (timestamps : list Z) (series : list PerfMetricSeries.t) :
  (length (calls is_plot_ratio (for_each (plot_series w counter interval timestamps) series))
   <= if String.eqb (CounterInfo.name counter) "cpu.ready" then length series else 0)%nat.
Proof.
  induction series as [| m series IH]; cbn [for_each length].
  - destruct (String.eqb _ _); cbn; lia.
  - pose proof (plot_series_ratio_calls w counter interval timestamps m) as Hm.
    pose proof (length_calls_bind_le is_plot_ratio
                  (plot_series w counter interval timestamps m)
                  (fun _ => for_each (plot_series w counter interval timestamps) series)
                  _ _ Hm (fun _ => IH)) as Hle.
    destruct (String.eqb (CounterInfo.name counter) "cpu.ready"); lia.
Qed.

(** X16: the chart gets its second axis exactly when the counter's name
    is [cpu.ready], compared as it is spelled; and the run makes at
    most one [ax2.plot] call per series of the record for that counter
    and none for any other counter. *)
Theorem second_axis_only_for_cpu_ready (w : World) (sel : Selection)
    (counter : CounterInfo.t) (rec : PerfEntityMetric.t) :
  calls is_twinx (build_graph w sel counter rec)
  = (if String.eqb (CounterInfo.name counter) "cpu.ready"
     then [ETwinx "cpu.ready %"] else []) /\
  (length (calls is_plot_ratio (build_graph w sel counter rec))
   <= if String.eqb (CounterInfo.name counter) "cpu.ready"
      then length (PerfEntityMetric.value rec) else 0)%nat.
Proof.
  unfold build_graph. cbv zeta. split.
  - rewrite calls_bind, calls_emit_other, app_nil_l by reflexivity. cbn [result emit snd].
    rewrite calls_bind_none; [| intros _; unfold plot_series; no_calls].
    destruct (String.eqb_spec (CounterInfo.name counter) "cpu.ready") as [-> | _];
      reflexivity.
  - rewrite calls_bind, calls_emit_other, app_nil_l by reflexivity. cbn [result emit snd].
    rewrite calls_bind.
    assert (Hif : calls is_plot_ratio
                    (if String.eqb (CounterInfo.name counter) "cpu.ready"
                     then emit (ETwinx (CounterInfo.name counter +:+ " %"))
                     else ret tt) = []) by (now destruct (String.eqb _ _)).
    rewrite Hif, app_nil_l. destruct (result _); [| cbn; lia].
    pose proof (for_each_ratio_calls w counter (sel_interval sel)
                  (PerfEntityMetric.sampleInfo rec) (PerfEntityMetric.value rec)) as Hloop.
    pose proof (length_calls_bind_le is_plot_ratio _
                  (fun _ : unit =>
                     mo_name <~ attr (sel_mo sel) ManagedEntity.name ;;
                     emit (EShow (CounterInfo.name counter +:+ " (" +:+
                                  CounterInfo.label counter +:+ ")")
                                 (CounterInfo.name counter +:+ " on " +:+ mo_name +:+
                                  String (ascii_of_nat 10) (CounterInfo.summary counter))))
                  _ 0%nat Hloop) as Hle.
    rewrite Nat.add_0_r in Hle. apply Hle.
    intros _. assert (Hnone : forall x y, calls is_plot_ratio
                (mo_name <~ attr (sel_mo sel) ManagedEntity.name ;; emit (EShow x (y mo_name))) = []).
    { intros x y. no_calls. }
    rewrite (Hnone _ (fun mo_name => CounterInfo.name counter +:+ " on " +:+ mo_name +:+
                        String (ascii_of_nat 10) (CounterInfo.summary counter))).
    cbn. lia.
Qed.

(** ** What a failed session establishment leaves undone *)

(** X17: if [enable_guest] has sent the batch update, then the login,
    the service content and the counter table had all been answered,
    and the batch is the table's mapping at level 4; so no collection
    level is changed after a refused login or a failed read. *)
Theorem update_only_after_the_table_was_read (w : World) (addr user password : string)
    (ref : MoRef.t) (mappings : list CounterLevelMapping.t) :
  In (EUpdateCounterLevelMapping ref mappings) (trace (enable_guest w addr user password)) ->
  Login w user password = Ret tt /\
  RetrieveServiceContent w = Ret ref /\
  exists counters,
    QueryPerfCounterInt w ref = Ret counters /\
    mappings = map (fun c => CounterLevelMapping.Build (PerfCounterInfo.key c) 4) counters.
Proof.
  unfold enable_guest, bind, call, emit, ret, lift, trace.
  destruct (Login w user password) as [[] | e1]; cbn;
    [| intros [H | []]; discriminate].
  destruct (RetrieveServiceContent w) as [ref' | e2]; cbn;
    [| intros [H | [H | []]]; discriminate].
  destruct (QueryPerfCounterInt w ref') as [counters | e3] eqn:Hq; cbn;
    [| intros [H | [H | [H | [H | [H | []]]]]]; discriminate].
  rewrite level_mappings_map.
  destruct (UpdateCounterLevelMapping w ref' _); cbn;
    [destruct (cookies_get (cookies w) "vmware_soap_session"); cbn |];
    intros [H | [H | [H | [H | [H | [H | []]]]]]]; try discriminate;
    injection H as <- <-; (split; [reflexivity |]); (split; [reflexivity |]);
    exists counters; split; auto.
Qed.

Lemma update_only_after_the_table_was_read_witness :
  In (EUpdateCounterLevelMapping (MoRef.Build "PerformanceManager" "PerfMgr")
        [CounterLevelMapping.Build 12 4; CounterLevelMapping.Build 143 4])
     (trace (enable_guest no_data_lab "vc.lab" "root" "secret")) /\
  Login no_data_lab "root" "secret" = Ret tt /\
  calls is_update (enable_guest locked_out_lab "vc.lab" "root" "secret") = [].
Proof.
  assert (Hin : In (EUpdateCounterLevelMapping (MoRef.Build "PerformanceManager" "PerfMgr")
                      [CounterLevelMapping.Build 12 4; CounterLevelMapping.Build 143 4])
                   (trace (enable_guest no_data_lab "vc.lab" "root" "secret"))).
  { vm_compute. intuition. }
  split; [exact Hin |].
  split; [| reflexivity].
  exact (proj1 (update_only_after_the_table_was_read _ _ _ _ _ _ Hin)).
Defined.

(** X18: when [enable_guest] raises, [main] ends there with the same
    exception: no prompt is shown and no call of the typed session is
    made. *)
Theorem failed_session_ends_the_run (w : World) (args : Args) (e : exn) :
  result (enable_guest w (host args) (user args) (password args)) = Raise e ->
  main w args = (trace (enable_guest w (host args) (user args) (password args)), Raise e).
Proof.
  intros Hraise. unfold main, main_select.
  destruct (enable_guest w (host args) (user args) (password args)) as [t r] eqn:Hguest.
  unfold result, trace in *. cbn [fst snd] in *. subst r.
  rewrite (bind_raises _ _ t e eq_refl). reflexivity.
Qed.

Lemma failed_session_ends_the_run_witness :
  result (enable_guest locked_out_lab (host lab_args) (user lab_args) (password lab_args))
    = Raise (Fault "InvalidLogin") /\
  main locked_out_lab lab_args
    = ([ELogin "vc.lab" "root" "secret"], Raise (Fault "InvalidLogin")).
Proof.
  split; [reflexivity |].
  rewrite (failed_session_ends_the_run locked_out_lab lab_args (Fault "InvalidLogin"));
    reflexivity.
Defined.

(** ** The rendering loses nothing *)

(** X19: the rendering loses nothing: for every [n >= 0], reading the
    text of [seconds_to_readable n] back, each number weighted by its
    unit, gives [n]; so two non-negative durations with the same text
    are equal. *)
Theorem seconds_to_readable_reads_back (n : Z) :
  0 <= n ->
  read_duration (seconds_to_readable n) 0 0 = n /\
  (forall n', 0 <= n' -> seconds_to_readable n' = seconds_to_readable n -> n' = n).
Proof.
  assert (Hread : forall k, 0 <= k -> read_duration (seconds_to_readable k) 0 0 = k).
  { intros k Hk. rewrite seconds_to_readable_render.
    pose proof (divmod_chain k Hk) as Hchain. cbv zeta in Hchain.
    destruct Hchain as (Heq & Hd & Hh & Hm & Hs).
    rewrite render_duration_reads_back by lia. lia. }
  intros Hn. split; [now apply Hread |].
  intros n' Hn' Htext. rewrite <- (Hread n' Hn'), Htext. now apply Hread.
Qed.

Lemma seconds_to_readable_reads_back_witness :
  0 <= 93784 /\
  seconds_to_readable 93784 = "1d 2h 3m 4s" /\
  read_duration "1d 2h 3m 4s" 0 0 = 93784 /\
  read_duration (seconds_to_readable 604800) 0 0 = 604800.
Proof.
  split; [lia |]. split; [reflexivity |]. split; [reflexivity |].
  assert (Hn : 0 <= 604800) by lia.
  exact (proj1 (seconds_to_readable_reads_back 604800 Hn)).
Defined.
